(** * proof-of-hat: tweet image resolver and visual verifier

    A shallow embedding of the two TypeScript entry points of the
    repository:

    - [src/index.ts], the schema-validated variant, and
    - the earlier free-text variant (keyword matching over the model's
      answer).

    Both scripts share the text of [fetchTweetData]; they differ in
    [askOpenAIAboutImage] and in [main].  Remote services (the Twitter
    lookup and the OpenAI call) are section variables: a settled promise
    for each request.  Console output, remote requests and the process exit
    code are observable, so every effectful function returns the list of
    events it emitted next to its outcome. *)

From Stdlib Require Import String Ascii List Bool ZArith Lia.
Import ListNotations.

Local Open Scope string_scope.
Local Open Scope list_scope.

(** ** JavaScript values *)

Module Js.

(** The character [U+0022] and the line feed, for the string constants of
    the source that contain them. *)
Definition dq : string := String (ascii_of_nat 34) EmptyString.
Definition nl : string := String (ascii_of_nat 10) EmptyString.

(** Truthiness of a [string | undefined]: defined and not empty. *)
Definition truthy (v : option string) : bool :=
  match v with
  | Some (String _ _) => true
  | _ => false
  end.

(** [${v}] in a template literal. *)
Definition show (v : option string) : string :=
  match v with
  | Some s => s
  | None => "undefined"
  end.

Definition show_bool (b : bool) : string := if b then "true" else "false".

(** [a || b] on [string | undefined]. *)
Definition or_else (a b : option string) : option string :=
  if truthy a then a else b.

(** [o?.f] *)
Definition chain {A B : Type} (o : option A) (f : A -> option B) : option B :=
  match o with
  | Some a => f a
  | None => None
  end.

(** A value that may be [undefined] or [null]. *)
Inductive Nullable (A : Type) : Type :=
| undefined
| null
| value (a : A).
Arguments undefined {A}.
Arguments null {A}.
Arguments value {A} a.

Definition is_absent {A : Type} (v : Nullable A) : bool :=
  match v with
  | value _ => false
  | _ => true
  end.

(** [o?.f] where the field itself is nullable. *)
Definition chain_nullable {A B : Type} (o : option A) (f : A -> Nullable B)
  : Nullable B :=
  match o with
  | Some a => f a
  | None => undefined
  end.

(** [s.includes(kw)]: [kw] occurs in [s] as a contiguous substring. *)
Fixpoint includes (s kw : string) : bool :=
  prefix kw s ||
  match s with
  | EmptyString => false
  | String _ rest => includes rest kw
  end.

(** What a [catch] clause can receive: an [Error] instance with its
    message, or some other thrown value. *)
Inductive Thrown : Type :=
| ErrorObj (message : string)
| NonError (repr : string).

(** [error instanceof Error ? error.message : dflt] *)
Definition message_or (dflt : string) (error : Thrown) : string :=
  match error with
  | ErrorObj m => m
  | NonError _ => dflt
  end.

(** A settled promise. *)
Inductive Settled (A : Type) : Type :=
| Fulfilled (a : A)
| Rejected (e : Thrown).
Arguments Fulfilled {A} a.
Arguments Rejected {A} e.

End Js.
Import Js.

(** ** Data model *)

(** The tweet-lookup response, with the fields the resolver reads
    ([twitter-api-v2]: [TweetV2SingleResult]). *)
Module Twitter.

Record MediaObjectV2 : Type := {
  type : string;
  url : option string;
  preview_image_url : option string
}.

Record InlineErrorV2 : Type := {
  detail : option string;
  title : option string
}.

Record TweetV2 : Type := {
  text : option string
}.

Record ApiV2Includes : Type := {
  media : option (list MediaObjectV2)
}.

Record TweetV2SingleResult : Type := {
  data : option TweetV2;
  includes : option ApiV2Includes;
  errors : option (list InlineErrorV2)
}.

(** The options object of the lookup. *)
Record LookupParams : Type := {
  expansions : list string;
  media_fields : list string
}.

End Twitter.

(** What [fetchTweetData] resolves to: [{ imageUrl?: string, text?: string }]. *)
Record ResolvedImage : Type := {
  imageUrl : option string;
  text : option string
}.

(** [verificationResponseSchema]: [z.object({ result: z.boolean(),
    reasoning: z.string() })]. *)
Record VerificationResponse : Type := {
  result : bool;
  reasoning : string
}.

(** The chat-completions request of [src/index.ts]. *)
Module Chat.

Inductive ContentPart : Type :=
| text_part (text : string)
| image_url_part (url : string).

Inductive Message : Type :=
| system (content : string)
| user (content : list ContentPart).

(** [zodResponseFormat(schema, name)]: the schema is
    [VerificationResponse], the name is kept. *)
Record Request : Type := {
  model : string;
  temperature : Z;
  messages : list Message;
  response_format : string
}.

Record ParsedMessage : Type := {
  parsed : Nullable VerificationResponse
}.

Record ParsedChoice : Type := {
  message : option ParsedMessage
}.

Record ParsedChatCompletion : Type := {
  choices : list ParsedChoice
}.

End Chat.

(** The responses request of the free-text variant.  The API takes text and
    image inputs in a message's content. *)
Module Responses.

Inductive InputContent : Type :=
| input_text (text : string)
| input_image (image_url : string).

Record InputMessage : Type := {
  role : string;
  content : list InputContent
}.

Record Request : Type := {
  model : string;
  temperature : Z;
  input : list InputMessage;
  text_format : string
}.

Record Message : Type := {
  msg_content : Nullable string
}.

Record Choice : Type := {
  message : option Message
}.

(** The variant reads [response.choices[0]?.message?.content]; a response
    object without a [choices] property is [choices := None]. *)
Record Response : Type := {
  choices : option (list Choice)
}.

End Responses.

(** ** Effects: console, remote calls, exit *)

(** [console.log], [console.warn], [console.error] *)
Module Level.
Inductive t : Type := log | warn | error.
End Level.

Inductive LogArg : Type :=
| Str (s : string)
| Caught (e : Thrown)
| ErrorList (es : list Twitter.InlineErrorV2)
| Parsed (v : Nullable VerificationResponse).

Inductive Event : Type :=
| Console (lvl : Level.t) (args : list LogArg)
| SingleTweet (tweetId : string) (params : Twitter.LookupParams)
| ChatParse (req : Chat.Request)
| ResponsesCreate (req : Responses.Request).

Inductive Outcome (A : Type) : Type :=
| Return (a : A)
| Throw (e : Thrown)
| Exit (code : Z).
Arguments Return {A} a.
Arguments Throw {A} e.
Arguments Exit {A} code.

(** A computation: the events emitted, in order, and how it ended. *)
Definition Eff (A : Type) : Type := (list Event * Outcome A)%type.

Definition ret {A : Type} (a : A) : Eff A := ([], Return a).

Definition bind {A B : Type} (m : Eff A) (k : A -> Eff B) : Eff B :=
  match m with
  | (tr, Return a) => let (tr', o) := k a in (tr ++ tr', o)
  | (tr, Throw e) => (tr, Throw e)
  | (tr, Exit c) => (tr, Exit c)
  end.

Definition throw {A : Type} (e : Thrown) : Eff A := ([], Throw e).

(** [process.exit(code)]: nothing after it runs, no handler sees it. *)
Definition process_exit {A : Type} (code : Z) : Eff A := ([], Exit code).

(** [try { body } catch (error) { handler }] *)
Definition try_catch {A : Type} (body : Eff A) (handler : Thrown -> Eff A)
  : Eff A :=
  match body with
  | (tr, Throw e) => let (tr', o) := handler e in (tr ++ tr', o)
  | settled => settled
  end.

Definition console (lvl : Level.t) (args : list LogArg) : Eff unit :=
  ([Console lvl args], Return tt).

(** [await] of a remote call: the request is observable, the promise settles. *)
Definition await {A : Type} (request : Event) (p : Settled A) : Eff A :=
  ([request],
   match p with
   | Fulfilled a => Return a
   | Rejected e => Throw e
   end).

Declare Scope eff_scope.
Delimit Scope eff_scope with eff.
Notation "x <- m ;; k" := (bind m (fun x => k))
  (at level 61, m at next level, right associativity) : eff_scope.
Notation "m ;; k" := (bind m (fun _ => k))
  (at level 61, right associativity) : eff_scope.
Notation "'when' c 'then' m" := (if c then m else ret tt)
  (at level 60, c at level 9) : eff_scope.
Local Open Scope eff_scope.

Definition events {A : Type} (m : Eff A) : list Event := fst m.
Definition outcome {A : Type} (m : Eff A) : Outcome A := snd m.

(** ** Tweet resolver

    [fetchTweetData] has the same text in both scripts
    ([src/index.ts] lines 38-91). *)

Module Resolver.
Import Twitter.

Definition lookupParams : LookupParams :=
  {| expansions := ["attachments.media_keys"];
     media_fields := ["url"; "type"; "preview_image_url"] |}.

(** [m => m.type === 'photo' && m.url] *)
Definition is_photo_with_url (m : MediaObjectV2) : bool :=
  (type m =? "photo") && truthy (url m).

(** [m => m.type === 'photo' && m.preview_image_url] *)
Definition is_photo_with_preview (m : MediaObjectV2) : bool :=
  (type m =? "photo") && truthy (preview_image_url m).

(** [m => m.type === 'video' && m.preview_image_url] *)
Definition is_video_with_preview (m : MediaObjectV2) : bool :=
  (type m =? "video") && truthy (preview_image_url m).

(** Lines 56-77: the value of the local [imageUrl] once the selection
    block has run over [tweet.includes?.media]. *)
Definition selectImageUrl (media : option (list MediaObjectV2))
  : option string :=
  match media with
  | Some ((_ :: _) as media) =>
      let photoMedia := find is_photo_with_url media in
      if truthy (chain photoMedia url) then chain photoMedia url
      else
        let photoPreviewMedia := find is_photo_with_preview media in
        if truthy (chain photoPreviewMedia preview_image_url)
        then chain photoPreviewMedia preview_image_url
        else
          let videoMediaWithPreview := find is_video_with_preview media in
          if truthy (chain videoMediaWithPreview preview_image_url)
          then chain videoMediaWithPreview preview_image_url
          else None
  | _ => None
  end.

(** [tweet.errors && tweet.errors.length > 0] *)
Definition has_errors (tweet : TweetV2SingleResult) : bool :=
  match errors tweet with
  | Some (_ :: _) => true
  | _ => false
  end.

Definition warning (tweetId : string) : string :=
  "Tweet " ++ tweetId ++
  " does not appear to contain a usable image URL (photo or video thumbnail).".

Section WithClient.

(** [readOnlyTwitterClient.v2.singleTweet] *)
Variable singleTweet : string -> LookupParams -> Settled TweetV2SingleResult.

Definition fetchTweetData (tweetId : string) : Eff ResolvedImage :=
  console Level.log [Str ("Fetching tweet from Twitter API: " ++ tweetId)] ;;
  try_catch
    (tweet <- await (SingleTweet tweetId lookupParams)
                    (singleTweet tweetId lookupParams) ;;
     match errors tweet with
     | Some ((e0 :: _) as es) =>
         let errorDetail := or_else (detail e0) (title e0) in
         console Level.error
           [Str "Error fetching tweet:"; Str (show errorDetail); ErrorList es] ;;
         throw (ErrorObj ("Failed to fetch tweet: " ++ show errorDetail))
     | _ =>
         match data tweet with
         | None => throw (ErrorObj "Tweet data not found in API response.")
         | Some d =>
             let media := chain (includes tweet) Twitter.media in
             let imageUrl := selectImageUrl media in
             when (negb (truthy imageUrl)) then
               console Level.warn [Str (warning tweetId)] ;;
             ret (Build_ResolvedImage imageUrl (Twitter.text d))
         end
     end)
    (fun error =>
       let message := message_or "Unknown error" error in
       console Level.error
         [Str ("Error fetching or processing tweet " ++ tweetId ++ " from API:");
          Str message; Caught error] ;;
       throw (ErrorObj ("Failed to process tweet " ++ tweetId ++ ": " ++ message))).

End WithClient.

End Resolver.

(** ** Process *)

(** [process.env], the two variables the scripts read. *)
Record Env : Type := {
  OPENAI_API_KEY : option string;
  TWITTER_BEARER_TOKEN : option string
}.

(** The exit code of the Node process: the argument of [process.exit], 0
    when the script runs to completion, 1 when an exception is left
    uncaught. *)
Definition exit_code (script : Eff unit) : Z :=
  match outcome script with
  | Return _ => 0
  | Throw _ => 1
  | Exit code => code
  end.

(** Lines 16-24 of [src/index.ts] (22-30 of the free-text script). *)
Definition check_env (env : Env) : Eff unit :=
  when (negb (truthy (OPENAI_API_KEY env))) then
    (console Level.error
       [Str "Error: OPENAI_API_KEY is not set in the .env file."] ;;
     process_exit 1) ;;
  when (negb (truthy (TWITTER_BEARER_TOKEN env))) then
    (console Level.error
       [Str "Error: TWITTER_BEARER_TOKEN is not set in the .env file. This is required to fetch tweet data."] ;;
     process_exit 1).

(** [new OpenAI({ apiKey })] of the [openai] package, which is not part of
    the repository: the constructor throws an [OpenAIError] (the message is
    the package's) when [apiKey] is [undefined], and builds the client
    otherwise, also from an empty string.  [src/index.ts] constructs its
    client after the checks above, from a key that is set; the free-text
    script constructs it on line 13, before them. *)
Definition OpenAIError_missing_key : Thrown :=
  ErrorObj "The OPENAI_API_KEY environment variable is missing or empty; either provide it, or instantiate the OpenAI client with an apiKey option, like new OpenAI({ apiKey: 'My API Key' }).".

Definition newOpenAI (apiKey : option string) : Eff unit :=
  match apiKey with
  | None => throw OpenAIError_missing_key
  | Some _ => ret tt
  end.

(** [main().catch(error => { ...; process.exit(1) })], the last statement of
    both scripts. *)
Definition catch_unhandled (main : Eff unit) : Eff unit :=
  try_catch main
    (fun error =>
       let errorMessage := message_or "An unknown unhandled error" error in
       console Level.error
         [Str "Unhandled error in main execution:"; Str errorMessage; Caught error] ;;
       process_exit 1).

(** ** The schema-validated variant: [src/index.ts] *)

Module Schema.

Definition TWEET_ID : string := "1921299860000518230".

Definition referenceImageUrls : list string :=
  ["https://raw.githubusercontent.com/KuphJr/proof-of-hat/main/tunnl-hat-front.jpg";
   "https://raw.githubusercontent.com/KuphJr/proof-of-hat/main/tunnl-hat-side-1.jpg";
   "https://raw.githubusercontent.com/KuphJr/proof-of-hat/main/tunnl-hat-side-2.jpg"].

Definition systemPrompt : string :=
  "You are a vision model that analyzes images to determine if they contain a black baseball hat with a "
  ++ dq ++ "tunnl" ++ dq ++ " logo on it anywhere within the image.".

Definition userPrompt : string :=
  "The first 3 images are reference photos of the black baseball cap with the white "
  ++ dq ++ "tunnl" ++ dq
  ++ " logo. The last image is the image you are analyzing." ++ nl
  ++ "Please analyze the final image and return your answer in this exact JSON format:" ++ nl
  ++ "{" ++ nl
  ++ "  " ++ dq ++ "result" ++ dq
  ++ ": true if the image contains a black baseball hat with a "
  ++ dq ++ "tunnl" ++ dq
  ++ " logo on it. false if you cannot see the hat with the logo anywhere in the image." ++ nl
  ++ "  " ++ dq ++ "reasoning" ++ dq ++ ": " ++ dq
  ++ "Short explanation of why or why not you think the image contains a black baseball hat with a "
  ++ dq ++ "tunnl" ++ dq ++ " logo on it." ++ dq ++ nl
  ++ "}" ++ nl
  ++ nl
  ++ "Only output the JSON object.".

(** Lines 98-110 and 113-134: the argument of
    [openai.beta.chat.completions.parse], built from the function's
    [imageUrl]. *)
Definition request (imageUrl : string) : Chat.Request :=
  let referenceImageMessages := map Chat.image_url_part referenceImageUrls in
  let imageToAnalyzeMessage := Chat.image_url_part imageUrl in
  {| Chat.model := "gpt-4o";
     Chat.temperature := 0;
     Chat.messages :=
       [Chat.system systemPrompt;
        Chat.user
          (Chat.text_part userPrompt
             :: referenceImageMessages ++ [imageToAnalyzeMessage])];
     Chat.response_format := "response" |}.

Section WithClients.

Variable singleTweet :
  string -> Twitter.LookupParams -> Settled Twitter.TweetV2SingleResult.

(** [openai.beta.chat.completions.parse] *)
Variable parse : Chat.Request -> Settled Chat.ParsedChatCompletion.

Definition askOpenAIAboutImage (imageUrl : string)
  : Eff (Nullable VerificationResponse) :=
  try_catch
    (result <- await (ChatParse (request imageUrl)) (parse (request imageUrl)) ;;
     ret (chain_nullable
            (chain (nth_error (Chat.choices result) 0) Chat.message)
            Chat.parsed))
    (fun error =>
       console Level.error
         [Str "Error asking OpenAI:";
          match error with
          | ErrorObj m => Str m
          | NonError _ => Caught error
          end] ;;
       throw (ErrorObj
                ("Failed to get response from OpenAI about the image. "
                 ++ message_or EmptyString error))).

Definition main : Eff unit :=
  console Level.log [Str ("Processing Tweet ID: " ++ TWEET_ID)] ;;
  try_catch
    (tweetData <- Resolver.fetchTweetData singleTweet TWEET_ID ;;
     console Level.log [Str ("Image URL: " ++ show (imageUrl tweetData))] ;;
     match imageUrl tweetData with
     | Some (String _ _ as url) =>
         openAIResponse <- askOpenAIAboutImage url ;;
         console Level.log [Parsed openAIResponse]
     | _ =>
         throw (ErrorObj ("No image URL found for Tweet ID: " ++ TWEET_ID ++ "."))
     end)
    (fun error =>
       let errorMessage := message_or "An unknown error occurred" error in
       console Level.error
         [Str "Error in main execution:"; Str errorMessage; Caught error] ;;
       process_exit 1).

(** The whole script, top to bottom. *)
Definition script (env : Env) : Eff unit :=
  check_env env ;;
  catch_unhandled main.

End WithClients.

End Schema.

(** ** The free-text variant *)

Module FreeText.

Definition TWEET_ID : string := "1921316529062265045".

Definition question : string :=
  "Does this picture contain a black baseball hat with a "
  ++ dq ++ "tunnl" ++ dq ++ " logo on it?" ++ nl
  ++ "I have provided you with 3 example images of the hat with the Tunnl logo on it named "
  ++ dq ++ "tunnl-hat-front.jpg" ++ dq ++ ", "
  ++ dq ++ "tunnl-hat-side-1.jpg" ++ dq ++ ", and "
  ++ dq ++ "tunnl-hat-side-2.jpg" ++ dq ++ "." ++ nl
  ++ "The image you are analyzing is named " ++ dq ++ "posted-image.jpg" ++ dq ++ "." ++ nl
  ++ "If you cannot see the hat with the logo anywhere in the image, respond with "
  ++ dq ++ "no" ++ dq ++ "." ++ nl
  ++ "If you can see the hat with the logo anywhere in the image, respond with "
  ++ dq ++ "yes" ++ dq ++ "." ++ nl.

Definition positiveKeywords : list string :=
  ["yes"; "it does"; "shows a black baseball hat"].

Definition negativeKeywords : list string :=
  ["no"; "it does not"; "does not show"].

(** Lines 157-163: the local [result: boolean | undefined] after the two
    keyword tests on [responseLower]. *)
Definition verdict (responseLower : string) : option bool :=
  if existsb (fun keyword => includes responseLower keyword) positiveKeywords
  then Some true
  else if existsb (fun keyword => includes responseLower keyword) negativeKeywords
  then Some false
  else None.

Definition asked : string :=
  "Does the image contain a black baseball hat with white lettering?".

(** Lines 150-171: the body of [if (openAIResponse) { ... }].
    [String.prototype.toLowerCase] is the language's, with its Unicode case
    mapping; it is a parameter here. *)
Definition interpret (toLowerCase : string -> string) (openAIResponse : string)
  : Eff unit :=
  console Level.log [Str "OpenAI Response:"; Str openAIResponse] ;;
  let responseLower := toLowerCase openAIResponse in
  match verdict responseLower with
  | Some result =>
      console Level.log [Str (asked ++ " " ++ show_bool result)]
  | None =>
      console Level.log
        [Str "Could not definitively determine the answer from OpenAI's response."] ;;
      console Level.log [Str "Full OpenAI response:"; Str openAIResponse] ;;
      console Level.log
        [Str ("Assuming 'false' due to ambiguous response for: " ++ asked)]
  end.

(** Lines 106-120: the argument of [openai.responses.create].  The
    object literal reads [question] and nothing else of the function's
    scope. *)
Definition request (question : string) : Responses.Request :=
  {| Responses.model := "gpt-4o";
     Responses.temperature := 0;
     Responses.input :=
       [{| Responses.role := "user";
           Responses.content := [Responses.input_text question] |}];
     Responses.text_format := "response" |}.

Section WithClients.

(** [String.prototype.toLowerCase] *)
Variable toLowerCase : string -> string.

Variable singleTweet :
  string -> Twitter.LookupParams -> Settled Twitter.TweetV2SingleResult.

(** [openai.responses.create] *)
Variable create : Responses.Request -> Settled Responses.Response.

Definition askOpenAIAboutImage (imageUrl : string) (question : string)
  : Eff (Nullable string) :=
  try_catch
    (response <- await (ResponsesCreate (request question))
                       (create (request question)) ;;
     match Responses.choices response with
     | Some choices =>
         ret (chain_nullable
                (chain (nth_error choices 0) Responses.message)
                Responses.msg_content)
     | None =>
         (* indexing [undefined] is a TypeError *)
         throw (ErrorObj "Cannot read properties of undefined (reading '0')")
     end)
    (fun error =>
       console Level.error
         [Str "Error asking OpenAI:";
          match error with
          | ErrorObj m => Str m
          | NonError _ => Caught error
          end] ;;
       throw (ErrorObj
                ("Failed to get response from OpenAI about the image. "
                 ++ message_or EmptyString error))).

Definition main : Eff unit :=
  console Level.log [Str ("Processing Tweet ID: " ++ TWEET_ID)] ;;
  try_catch
    (tweetData <- Resolver.fetchTweetData singleTweet TWEET_ID ;;
     match imageUrl tweetData with
     | Some (String _ _ as url) =>
         openAIResponse <- askOpenAIAboutImage url question ;;
         match openAIResponse with
         | value (String _ _ as openAIResponse) =>
             interpret toLowerCase openAIResponse
         | _ =>
             console Level.log [Str "OpenAI did not provide a response."] ;;
             console Level.log
               [Str ("Result for " ++ dq ++ asked ++ dq
                     ++ ": false (no OpenAI response)")]
         end
     | _ =>
         throw (ErrorObj ("No image URL found for Tweet ID: " ++ TWEET_ID ++ "."))
     end)
    (fun error =>
       let errorMessage := message_or "An unknown error occurred" error in
       console Level.error
         [Str "Error in main execution:"; Str errorMessage; Caught error] ;;
       console Level.log
         [Str ("Result for " ++ dq ++ asked ++ dq
               ++ ": false (due to error: " ++ errorMessage ++ ")")]).

(** The whole script, top to bottom: the OpenAI client is constructed
    first (line 13), then come the checks (lines 22-30) and [main]. *)
Definition script (env : Env) : Eff unit :=
  newOpenAI (OPENAI_API_KEY env) ;;
  check_env env ;;
  catch_unhandled main.

End WithClients.

End FreeText.

(** ** Sample inputs *)

Module Samples.
Import Twitter.

Definition photo_both : MediaObjectV2 :=
  {| type := "photo";
     url := Some "https://pbs.twimg.com/media/a.jpg";
     preview_image_url := Some "https://pbs.twimg.com/media/a_preview.jpg" |}.

Definition photo_preview_only : MediaObjectV2 :=
  {| type := "photo";
     url := None;
     preview_image_url := Some "https://pbs.twimg.com/media/b_preview.jpg" |}.

Definition video_preview : MediaObjectV2 :=
  {| type := "video";
     url := None;
     preview_image_url := Some "https://pbs.twimg.com/media/v_thumb.jpg" |}.

Definition gif_preview : MediaObjectV2 :=
  {| type := "animated_gif";
     url := None;
     preview_image_url := Some "https://pbs.twimg.com/media/g_thumb.jpg" |}.

Definition tweet_with (ms : option (list MediaObjectV2)) : TweetV2SingleResult :=
  {| data := Some {| text := Some "look at my hat" |};
     includes := Some {| media := ms |};
     errors := None |}.

Definition not_found : InlineErrorV2 :=
  {| detail := Some "Could not find tweet with id: [1].";
     title := Some "Not Found Error" |}.

(** Tweet data together with an error entry. *)
Definition partial_error : TweetV2SingleResult :=
  {| data := Some {| text := Some "look at my hat" |};
     includes := None;
     errors := Some [not_found] |}.

Definition env_ok : Env :=
  {| OPENAI_API_KEY := Some "sk-test"; TWITTER_BEARER_TOKEN := Some "bearer" |}.

Definition hat_visible : VerificationResponse :=
  {| result := true; reasoning := "hat visible on subject's head" |}.

Definition completion (v : Nullable VerificationResponse)
  : Chat.ParsedChatCompletion :=
  {| Chat.choices := [{| Chat.message := Some {| Chat.parsed := v |} |}] |}.

(** A lower-casing for the sample runs, whose answers are ASCII text: on
    such text [toLowerCase] maps [A]..[Z] to [a]..[z] and keeps the rest. *)
Definition lower_ascii (c : ascii) : ascii :=
  let n := nat_of_ascii c in
  if (65 <=? n)%nat && (n <=? 90)%nat then ascii_of_nat (n + 32) else c.

Fixpoint asciiLowerCase (s : string) : string :=
  match s with
  | EmptyString => EmptyString
  | String c rest => String (lower_ascii c) (asciiLowerCase rest)
  end.

Definition answer (s : string) : Responses.Response :=
  {| Responses.choices :=
       Some [{| Responses.message := Some {| Responses.msg_content := value s |} |}] |}.

End Samples.

(** ** What the claims speak about, in their own terms *)

(** The selection rules of the resolver, as relations between an attachment
    and the URL it offers. *)
Module Rules.
Import Twitter.

Definition direct_photo_url (m : MediaObjectV2) (u : string) : Prop :=
  type m = "photo" /\ url m = Some u /\ u <> EmptyString.

Definition photo_preview_url (m : MediaObjectV2) (u : string) : Prop :=
  type m = "photo" /\ preview_image_url m = Some u /\ u <> EmptyString.

Definition video_preview_url (m : MediaObjectV2) (u : string) : Prop :=
  type m = "video" /\ preview_image_url m = Some u /\ u <> EmptyString.

(** [m] is the first attachment of [ms], in list order, that offers a URL
    under [rule], and [u] is that URL. *)
Definition first_offer (rule : MediaObjectV2 -> string -> Prop)
           (ms : list MediaObjectV2) (m : MediaObjectV2) (u : string) : Prop :=
  exists pre post,
    ms = pre ++ m :: post /\ rule m u /\ forall x v, In x pre -> ~ rule x v.

Definition no_offer (rule : MediaObjectV2 -> string -> Prop)
           (ms : list MediaObjectV2) : Prop :=
  forall x v, In x ms -> ~ rule x v.

(** No attachment offers a URL under any rule; an absent list offers
    nothing, and neither does an empty one. *)
Definition no_candidate (media : option (list MediaObjectV2)) : Prop :=
  match media with
  | None => True
  | Some ms =>
      no_offer direct_photo_url ms /\
      no_offer photo_preview_url ms /\
      no_offer video_preview_url ms
  end.

End Rules.

(** The error that the [catch] clause of [fetchTweetData] throws for the
    message of what it caught. *)
Definition failure (tweetId message : string) : Thrown :=
  ErrorObj ("Failed to process tweet " ++ tweetId ++ ": " ++ message).

(** The remote requests among the events of a run. *)
Definition is_request (e : Event) : bool :=
  match e with
  | Console _ _ => false
  | _ => true
  end.

Definition requests (tr : list Event) : list Event := filter is_request tr.

(** Both secrets are set. *)
Definition configured (env : Env) : bool :=
  truthy (OPENAI_API_KEY env) && truthy (TWITTER_BEARER_TOKEN env).

(** The image inputs of a request of the free-text variant. *)
Definition image_inputs (req : Responses.Request) : list string :=
  flat_map
    (fun msg =>
       flat_map
         (fun c =>
            match c with
            | Responses.input_image u => [u]
            | Responses.input_text _ => []
            end)
         (Responses.content msg))
    (Responses.input req).

(** The text inputs of a request of the free-text variant. *)
Definition text_inputs (req : Responses.Request) : list string :=
  flat_map
    (fun msg =>
       flat_map
         (fun c =>
            match c with
            | Responses.input_text t => [t]
            | Responses.input_image _ => []
            end)
         (Responses.content msg))
    (Responses.input req).

(** A [console.warn] among the events of a run. *)
Definition is_warning (e : Event) : bool :=
  match e with
  | Console Level.warn _ => true
  | _ => false
  end.

(** A [console.error] among the events of a run. *)
Definition is_error_line (e : Event) : bool :=
  match e with
  | Console Level.error _ => true
  | _ => false
  end.

(** The attachment types the selection block ever looks at. *)
Definition photo_or_video (m : Twitter.MediaObjectV2) : bool :=
  (Twitter.type m =? "photo") || (Twitter.type m =? "video").

(** * Proofs *)

(** Runs the plumbing of [Eff] (binds, handlers, emitted events) and leaves
    the program's own tests in place. *)
Ltac run_eff :=
  cbv beta iota zeta
      delta [bind try_catch await console ret throw process_exit
             events outcome fst snd app].

(** On a concrete attachment: it offers the URL under a rule. *)
Ltac offers :=
  repeat split; simpl; try reflexivity; try discriminate.

(** On a concrete list: none of its attachments offers a URL under a rule. *)
Ltac nobody_before :=
  let x := fresh "x" in
  let v := fresh "v" in
  let H := fresh "H" in
  intros x v H;
  repeat (destruct H as [<-|H]; [intros (? & ? & ?); simpl in *; discriminate|]);
  destruct H.

(** ** Strings *)

Section StringFacts.

Lemma truthy_iff (v : option string) :
  truthy v = true <-> exists u, v = Some u /\ u <> EmptyString.
Proof.
  split.
  - destruct v as [[|c s]|]; simpl; try discriminate.
    intros _. exists (String c s). split; [reflexivity | discriminate].
  - intros [u [-> Hu]]. destruct u; [contradiction | reflexivity].
Qed.

Lemma truthy_Some (u : string) : u <> EmptyString -> truthy (Some u) = true.
Proof. intros Hu. apply truthy_iff. eauto. Qed.

Lemma prefix_refl (s : string) : prefix s s = true.
Proof.
  induction s as [|c s IH]; simpl; [reflexivity|].
  destruct (ascii_dec c c); [exact IH | contradiction].
Qed.

Lemma prefix_trans (a b c : string) :
  prefix a b = true -> prefix b c = true -> prefix a c = true.
Proof.
  revert b c. induction a as [|x a IH]; intros b c Hab Hbc; [destruct c; reflexivity|].
  destruct b as [|y b]; [discriminate|].
  destruct c as [|z c]; [discriminate|].
  simpl in *.
  destruct (ascii_dec x y) as [->|]; [|discriminate].
  destruct (ascii_dec y z) as [->|]; [|discriminate].
  destruct (ascii_dec z z); [|contradiction].
  eauto.
Qed.

Lemma append_assoc (a b c : string) : ((a ++ b) ++ c = a ++ (b ++ c))%string.
Proof. induction a as [|x a IH]; simpl; [reflexivity | now rewrite IH]. Qed.

Lemma includes_nil (kw : string) : includes EmptyString kw = prefix kw EmptyString.
Proof. simpl. apply orb_false_r. Qed.

Lemma includes_cons (c : ascii) (s kw : string) :
  includes (String c s) kw = prefix kw (String c s) || includes s kw.
Proof. reflexivity. Qed.

Lemma includes_here (s kw : string) : prefix kw s = true -> includes s kw = true.
Proof. intros H. destruct s; simpl in *; rewrite H; reflexivity. Qed.

Lemma includes_later (c : ascii) (s kw : string) :
  includes s kw = true -> includes (String c s) kw = true.
Proof. intros H. simpl. rewrite H. apply orb_true_r. Qed.

(** A string ends with its own suffix. *)
Lemma includes_app_r (a b : string) : includes (a ++ b) b = true.
Proof.
  induction a as [|c a IH]; simpl append.
  - apply includes_here, prefix_refl.
  - apply includes_later, IH.
Qed.

(** An occurrence of [u] is an occurrence of each of its prefixes. *)
Lemma includes_prefix (s p u : string) :
  prefix p u = true -> includes s u = true -> includes s p = true.
Proof.
  intros Hp. induction s as [|c s IH]; rewrite ?includes_nil, ?includes_cons; intros H.
  - exact (prefix_trans _ _ _ Hp H).
  - apply orb_true_iff in H. apply orb_true_iff. destruct H as [H|H].
    + left. exact (prefix_trans _ _ _ Hp H).
    + right. exact (IH H).
Qed.

End StringFacts.

(** ** Lists: the first element that passes a test *)

Section FirstMatch.
Context {A : Type} (f : A -> bool).

Lemma find_first (pre post : list A) (m : A) :
  f m = true -> (forall x, In x pre -> f x = false) ->
  find f (pre ++ m :: post) = Some m.
Proof.
  intros Hm. induction pre as [|x pre IH]; simpl; intros Hpre.
  - rewrite Hm. reflexivity.
  - rewrite (Hpre x (or_introl eq_refl)). apply IH. intros y Hy. apply Hpre. now right.
Qed.

Lemma find_nothing (l : list A) :
  (forall x, In x l -> f x = false) -> find f l = None.
Proof.
  induction l as [|x l IH]; simpl; intros H; [reflexivity|].
  rewrite (H x (or_introl eq_refl)). apply IH. intros y Hy. apply H. now right.
Qed.

Lemma find_split (l : list A) (m : A) :
  find f l = Some m ->
  exists pre post,
    l = pre ++ m :: post /\ f m = true /\ forall x, In x pre -> f x = false.
Proof.
  induction l as [|x l IH]; simpl; [discriminate|].
  destruct (f x) eqn:Hx.
  - intros [= ->]. exists [], l. repeat split; [assumption | intros ? []].
  - intros H. destruct (IH H) as (pre & post & -> & Hm & Hpre).
    exists (x :: pre), post. repeat split; [assumption|].
    intros y [<-|Hy]; auto.
Qed.

Lemma find_present (l : list A) (x : A) :
  In x l -> f x = true -> exists m, find f l = Some m.
Proof.
  intros Hin Hx. destruct (find f l) as [m|] eqn:E; [eauto|].
  rewrite (find_none f l E x Hin) in Hx. discriminate.
Qed.

End FirstMatch.

(** ** The resolver *)

Module ResolverFacts.
Import Twitter Resolver Rules.

Lemma is_photo_with_url_iff (m : MediaObjectV2) :
  is_photo_with_url m = true <-> exists u, direct_photo_url m u.
Proof.
  unfold is_photo_with_url, direct_photo_url.
  rewrite andb_true_iff, String.eqb_eq, truthy_iff. firstorder.
Qed.

Lemma is_photo_with_preview_iff (m : MediaObjectV2) :
  is_photo_with_preview m = true <-> exists u, photo_preview_url m u.
Proof.
  unfold is_photo_with_preview, photo_preview_url.
  rewrite andb_true_iff, String.eqb_eq, truthy_iff. firstorder.
Qed.

Lemma is_video_with_preview_iff (m : MediaObjectV2) :
  is_video_with_preview m = true <-> exists u, video_preview_url m u.
Proof.
  unfold is_video_with_preview, video_preview_url.
  rewrite andb_true_iff, String.eqb_eq, truthy_iff. firstorder.
Qed.

(** A rule and the test that [find] runs for it. *)
Section Offer.
Variable f : MediaObjectV2 -> bool.
Variable rule : MediaObjectV2 -> string -> Prop.
Hypothesis f_rule : forall m, f m = true <-> exists u, rule m u.

Lemma rule_fails (x : MediaObjectV2) : (forall v, ~ rule x v) -> f x = false.
Proof.
  intros H. destruct (f x) eqn:E; [|reflexivity].
  apply f_rule in E. destruct E as [v Hv]. destruct (H v Hv).
Qed.

Lemma first_offer_find ms m u : first_offer rule ms m u -> find f ms = Some m.
Proof.
  intros (pre & post & -> & Hm & Hpre).
  apply find_first.
  - apply f_rule. eauto.
  - intros x Hx. apply rule_fails. intros v. exact (Hpre x v Hx).
Qed.

Lemma no_offer_find ms : no_offer rule ms -> find f ms = None.
Proof.
  intros H. apply find_nothing. intros x Hx. apply rule_fails.
  intros v. exact (H x v Hx).
Qed.

Lemma find_first_offer ms m :
  find f ms = Some m -> exists u, first_offer rule ms m u.
Proof.
  intros H. destruct (find_split f ms m H) as (pre & post & -> & Hm & Hpre).
  apply f_rule in Hm. destruct Hm as [u Hu]. exists u, pre, post.
  repeat split; [assumption|].
  intros x v Hx Hv.
  assert (f x = true) as E by (apply f_rule; eauto).
  rewrite (Hpre x Hx) in E. discriminate.
Qed.

End Offer.

(** The selection block, with each optional chain resolved: what [find]
    returns passes the test, so its URL is truthy. *)
Lemma selectImageUrl_find (ms : list MediaObjectV2) :
  selectImageUrl (Some ms) =
  match find is_photo_with_url ms with
  | Some m => url m
  | None =>
      match find is_photo_with_preview ms with
      | Some m => preview_image_url m
      | None =>
          match find is_video_with_preview ms with
          | Some m => preview_image_url m
          | None => None
          end
      end
  end.
Proof.
  destruct ms as [|m0 ms]; [reflexivity|].
  cbv beta iota zeta delta [selectImageUrl].
  destruct (find is_photo_with_url (m0 :: ms)) as [m|] eqn:E1.
  { apply find_some in E1. destruct E1 as [_ E1].
    apply andb_true_iff in E1. destruct E1 as [_ E1].
    unfold chain. rewrite E1. reflexivity. }
  simpl (chain None _). simpl (truthy None). cbv iota.
  destruct (find is_photo_with_preview (m0 :: ms)) as [m|] eqn:E2.
  { apply find_some in E2. destruct E2 as [_ E2].
    apply andb_true_iff in E2. destruct E2 as [_ E2].
    unfold chain. rewrite E2. reflexivity. }
  simpl (chain None _). simpl (truthy None). cbv iota.
  destruct (find is_video_with_preview (m0 :: ms)) as [m|] eqn:E3.
  { apply find_some in E3. destruct E3 as [_ E3].
    apply andb_true_iff in E3. destruct E3 as [_ E3].
    unfold chain. rewrite E3. reflexivity. }
  reflexivity.
Qed.

(** Whatever is selected is the offer of some attachment of the list. *)
Lemma selectImageUrl_sound (media : option (list MediaObjectV2)) (u : string) :
  selectImageUrl media = Some u ->
  u <> EmptyString /\
  exists ms m,
    media = Some ms /\ In m ms /\
    (direct_photo_url m u \/ photo_preview_url m u \/ video_preview_url m u).
Proof.
  destruct media as [ms|]; [|discriminate].
  rewrite selectImageUrl_find.
  destruct (find is_photo_with_url ms) as [m|] eqn:E1.
  { intros Hu. apply find_some in E1. destruct E1 as [Hin E1].
    apply is_photo_with_url_iff in E1. destruct E1 as [v (Ht & Hv & Hne)].
    assert (v = u) as -> by congruence.
    split; [assumption|]. exists ms, m. unfold direct_photo_url. auto 8. }
  destruct (find is_photo_with_preview ms) as [m|] eqn:E2.
  { intros Hu. apply find_some in E2. destruct E2 as [Hin E2].
    apply is_photo_with_preview_iff in E2. destruct E2 as [v (Ht & Hv & Hne)].
    assert (v = u) as -> by congruence.
    split; [assumption|]. exists ms, m. unfold photo_preview_url. auto 8. }
  destruct (find is_video_with_preview ms) as [m|] eqn:E3; [|discriminate].
  intros Hu. apply find_some in E3. destruct E3 as [Hin E3].
  apply is_video_with_preview_iff in E3. destruct E3 as [v (Ht & Hv & Hne)].
  assert (v = u) as -> by congruence.
  split; [assumption|]. exists ms, m. unfold video_preview_url. auto 8.
Qed.

Lemma selectImageUrl_none (ms : list MediaObjectV2) :
  no_offer direct_photo_url ms ->
  no_offer photo_preview_url ms ->
  no_offer video_preview_url ms ->
  selectImageUrl (Some ms) = None.
Proof.
  intros H1 H2 H3. rewrite selectImageUrl_find.
  rewrite (no_offer_find _ _ is_photo_with_url_iff ms H1).
  rewrite (no_offer_find _ _ is_photo_with_preview_iff ms H2).
  rewrite (no_offer_find _ _ is_video_with_preview_iff ms H3).
  reflexivity.
Qed.

(** How [fetchTweetData] ends, by cases on what the lookup settled to. *)
Lemma fetchTweetData_outcome singleTweet (tweetId : string) :
  outcome (fetchTweetData singleTweet tweetId) =
  match singleTweet tweetId lookupParams with
  | Rejected e => Throw (failure tweetId (message_or "Unknown error" e))
  | Fulfilled tweet =>
      match errors tweet with
      | Some (e0 :: _) =>
          Throw (failure tweetId
                   ("Failed to fetch tweet: " ++ show (or_else (detail e0) (title e0))))
      | _ =>
          match data tweet with
          | None => Throw (failure tweetId "Tweet data not found in API response.")
          | Some d =>
              Return (Build_ResolvedImage
                        (selectImageUrl (chain (includes tweet) media))
                        (Twitter.text d))
          end
      end
  end.
Proof.
  unfold fetchTweetData, outcome, failure.
  destruct (singleTweet tweetId lookupParams) as [tweet|e]; [|reflexivity].
  run_eff.
  destruct (errors tweet) as [[|e0 es]|];
    try reflexivity;
    (destruct (data tweet) as [d|]; [|reflexivity]);
    destruct (truthy (selectImageUrl (chain (includes tweet) media)));
    reflexivity.
Qed.

End ResolverFacts.


(** ** Claims about the resolver *)

Section ResolverClaims.
Import Twitter Resolver Rules ResolverFacts.

(** C1.  Over the attached media list [ms], in the order the API returned
    it, the resolver's image URL is chosen by precedence, first match
    winning: (1) the direct url of the first photo that has a non-empty one;
    else (2) the preview of the first photo that has a non-empty preview;
    else (3) the preview of the first video that has a non-empty preview;
    else (4) none.  In particular a list holding a photo with both URLs
    yields a direct URL (that of the first photo offering one), a list
    without photos holding a video with a preview yields that video preview,
    which is non-empty; and what the selection yields is the [imageUrl] that
    [fetchTweetData] returns. *)
Theorem selection_precedence (ms : list MediaObjectV2) :
  (forall m u,
      first_offer direct_photo_url ms m u ->
      selectImageUrl (Some ms) = Some u) /\
  (forall m u,
      no_offer direct_photo_url ms ->
      first_offer photo_preview_url ms m u ->
      selectImageUrl (Some ms) = Some u) /\
  (forall m u,
      no_offer direct_photo_url ms ->
      no_offer photo_preview_url ms ->
      first_offer video_preview_url ms m u ->
      selectImageUrl (Some ms) = Some u) /\
  (no_offer direct_photo_url ms ->
   no_offer photo_preview_url ms ->
   no_offer video_preview_url ms ->
   selectImageUrl (Some ms) = None) /\
  (forall m u p,
      In m ms -> direct_photo_url m u -> photo_preview_url m p ->
      exists m' u',
        first_offer direct_photo_url ms m' u' /\
        selectImageUrl (Some ms) = Some u') /\
  (forall m u,
      (forall x, In x ms -> type x <> "photo") ->
      first_offer video_preview_url ms m u ->
      selectImageUrl (Some ms) = Some u /\ u <> EmptyString) /\
  (forall singleTweet tweetId tweet d,
      singleTweet tweetId lookupParams = Fulfilled tweet ->
      has_errors tweet = false ->
      data tweet = Some d ->
      chain (includes tweet) media = Some ms ->
      outcome (fetchTweetData singleTweet tweetId) =
      Return (Build_ResolvedImage (selectImageUrl (Some ms)) (Twitter.text d))).
Proof.
  assert (R1 : forall m u, first_offer direct_photo_url ms m u ->
                           selectImageUrl (Some ms) = Some u).
  { intros m u H. rewrite selectImageUrl_find.
    rewrite (first_offer_find _ _ is_photo_with_url_iff ms m u H).
    destruct H as (_ & _ & _ & (_ & Hu & _) & _). exact Hu. }
  assert (R3 : forall m u, no_offer direct_photo_url ms ->
                           no_offer photo_preview_url ms ->
                           first_offer video_preview_url ms m u ->
                           selectImageUrl (Some ms) = Some u).
  { intros m u N1 N2 H. rewrite selectImageUrl_find.
    rewrite (no_offer_find _ _ is_photo_with_url_iff ms N1).
    rewrite (no_offer_find _ _ is_photo_with_preview_iff ms N2).
    rewrite (first_offer_find _ _ is_video_with_preview_iff ms m u H).
    destruct H as (_ & _ & _ & (_ & Hu & _) & _). exact Hu. }
  split; [exact R1|]. split; [|split; [exact R3|split; [|split; [|split]]]].
  - intros m u N1 H. rewrite selectImageUrl_find.
    rewrite (no_offer_find _ _ is_photo_with_url_iff ms N1).
    rewrite (first_offer_find _ _ is_photo_with_preview_iff ms m u H).
    destruct H as (_ & _ & _ & (_ & Hu & _) & _). exact Hu.
  - apply selectImageUrl_none.
  - intros m u p Hin Hu _.
    assert (is_photo_with_url m = true) as Hm
        by (apply is_photo_with_url_iff; eauto).
    destruct (find_present _ ms m Hin Hm) as [m' Hfind].
    destruct (find_first_offer _ _ is_photo_with_url_iff ms m' Hfind) as [u' Hfirst].
    exists m', u'. split; [assumption | apply (R1 m' u' Hfirst)].
  - intros m u Hno H.
    assert (forall rule : MediaObjectV2 -> string -> Prop,
               (forall x v, rule x v -> type x = "photo") -> no_offer rule ms) as N.
    { intros rule Hrule x v Hx Hv. exact (Hno x Hx (Hrule x v Hv)). }
    split.
    + apply (R3 m u); [apply N | apply N | exact H]; intros x v (Ht & _); exact Ht.
    + destruct H as (_ & _ & _ & (_ & _ & Hne) & _). exact Hne.
  - intros singleTweet tweetId tweet d Hst Herr Hd Hms.
    rewrite fetchTweetData_outcome, Hst.
    unfold has_errors in Herr.
    destruct (errors tweet) as [[|e0 es]|]; try discriminate;
      rewrite Hd, Hms; reflexivity.
Qed.

(** C6.  Whenever [fetchTweetData] returns and the returned [imageUrl] is
    present, it is a non-empty string and it is one of the URL fields (a
    photo's direct url, a photo's preview_image_url or a video's
    preview_image_url) of an attachment in the media list of the API's
    response. *)
Theorem imageUrl_is_a_candidate
        singleTweet (tweetId : string) (r : ResolvedImage) (u : string) :
  outcome (fetchTweetData singleTweet tweetId) = Return r ->
  imageUrl r = Some u ->
  u <> EmptyString /\
  exists tweet ms m,
    singleTweet tweetId lookupParams = Fulfilled tweet /\
    chain (includes tweet) media = Some ms /\
    In m ms /\
    (direct_photo_url m u \/ photo_preview_url m u \/ video_preview_url m u).
Proof.
  rewrite fetchTweetData_outcome.
  destruct (singleTweet tweetId lookupParams) as [tweet|e]; [|discriminate].
  intros Hr Hu.
  assert (selectImageUrl (chain (includes tweet) media) = Some u) as Hsel.
  { destruct (errors tweet) as [[|e0 es]|]; try discriminate;
      (destruct (data tweet) as [d|]; [|discriminate]);
      injection Hr as <-; exact Hu. }
  destruct (selectImageUrl_sound _ _ Hsel) as (Hne & ms & m & Hms & Hin & Hrule).
  split; [assumption|]. exists tweet, ms, m. auto.
Qed.

(** C4.  When the lookup response carries a non-empty [errors] array,
    [fetchTweetData] throws instead of returning, and the message of the
    thrown error ends with the first entry's detail, or with its title when
    the detail is absent (or empty): the message contains it. *)
Theorem errors_fail_resolution
        singleTweet (tweetId : string) (tweet : TweetV2SingleResult)
        (e0 : InlineErrorV2) (rest : list InlineErrorV2) :
  singleTweet tweetId lookupParams = Fulfilled tweet ->
  errors tweet = Some (e0 :: rest) ->
  exists message,
    outcome (fetchTweetData singleTweet tweetId) = Throw (ErrorObj message) /\
    (forall d, detail e0 = Some d -> d <> EmptyString ->
               message = ("Failed to process tweet " ++ tweetId
                          ++ ": Failed to fetch tweet: " ++ d)%string /\
               Js.includes message d = true) /\
    (forall t, truthy (detail e0) = false -> title e0 = Some t ->
               message = ("Failed to process tweet " ++ tweetId
                          ++ ": Failed to fetch tweet: " ++ t)%string /\
               Js.includes message t = true).
Proof.
  intros Hst Herr.
  pose proof (fetchTweetData_outcome singleTweet tweetId) as Hout.
  rewrite Hst, Herr in Hout. unfold failure in Hout.
  eexists. split; [exact Hout|].
  split.
  - intros d Hd Hne. unfold or_else. rewrite Hd, (truthy_Some d Hne).
    split; [reflexivity|]. simpl show.
    rewrite <- !append_assoc. apply includes_app_r.
  - intros t Hd Ht. unfold or_else. rewrite Hd, Ht.
    split; [reflexivity|]. simpl show.
    rewrite <- !append_assoc. apply includes_app_r.
Qed.

(** C5, as stated, fails on a response that carries tweet data and an
    error entry: the media list is absent, yet the resolver throws. *)
Lemma partial_error_response_throws :
  data Samples.partial_error <> None /\
  chain (includes Samples.partial_error) media = None /\
  outcome (fetchTweetData (fun _ _ => Fulfilled Samples.partial_error) "1") =
  Throw (ErrorObj
           "Failed to process tweet 1: Failed to fetch tweet: Could not find tweet with id: [1].").
Proof. repeat split. discriminate. Qed.

(** C5, amended.  For a lookup response without error entries ([errors]
    absent or empty) and with tweet data, whose media list is absent, empty
    or holds no candidate under the selection rules, [fetchTweetData] logs
    its diagnostic, issues the lookup, logs one warning and returns
    [imageUrl: undefined] with the tweet's text; it does not throw. *)
Theorem no_image_is_a_warning
        singleTweet (tweetId : string) (tweet : TweetV2SingleResult) (d : TweetV2) :
  singleTweet tweetId lookupParams = Fulfilled tweet ->
  has_errors tweet = false ->
  data tweet = Some d ->
  no_candidate (chain (includes tweet) media) ->
  fetchTweetData singleTweet tweetId =
  ([Console Level.log [Str ("Fetching tweet from Twitter API: " ++ tweetId)];
    SingleTweet tweetId lookupParams;
    Console Level.warn
      [Str ("Tweet " ++ tweetId
            ++ " does not appear to contain a usable image URL (photo or video thumbnail).")]],
   Return (Build_ResolvedImage None (Twitter.text d))).
Proof.
  intros Hst Herr Hd Hno.
  assert (selectImageUrl (chain (includes tweet) media) = None) as Hsel.
  { destruct (chain (includes tweet) media) as [ms|]; [|reflexivity].
    destruct Hno as (N1 & N2 & N3). now apply selectImageUrl_none. }
  unfold fetchTweetData. rewrite Hst. run_eff.
  unfold has_errors in Herr.
  destruct (errors tweet) as [[|e0 es]|]; try discriminate;
    rewrite Hd, Hsel; reflexivity.
Qed.

(** *** The resolver claims at sample inputs *)

Lemma selection_precedence_witness :
  let ms := [Samples.photo_preview_only; Samples.photo_both] in
  let vs := [Samples.gif_preview; Samples.video_preview] in
  (first_offer direct_photo_url ms
               Samples.photo_both "https://pbs.twimg.com/media/a.jpg" /\
   selectImageUrl (Some ms) = Some "https://pbs.twimg.com/media/a.jpg") /\
  ((forall x, In x vs -> type x <> "photo") /\
   first_offer video_preview_url vs
               Samples.video_preview "https://pbs.twimg.com/media/v_thumb.jpg" /\
   selectImageUrl (Some vs) = Some "https://pbs.twimg.com/media/v_thumb.jpg").
Proof.
  intros ms vs.
  assert (first_offer direct_photo_url ms
                      Samples.photo_both "https://pbs.twimg.com/media/a.jpg") as H1.
  { exists [Samples.photo_preview_only], []. split; [reflexivity|].
    split; [offers | nobody_before]. }
  assert (forall x, In x vs -> type x <> "photo") as H2.
  { intros x [<-|[<-|[]]]; simpl; discriminate. }
  assert (first_offer video_preview_url vs
                      Samples.video_preview "https://pbs.twimg.com/media/v_thumb.jpg") as H3.
  { exists [Samples.gif_preview], []. split; [reflexivity|].
    split; [offers | nobody_before]. }
  split.
  - split; [exact H1|].
    exact (proj1 (selection_precedence ms) _ _ H1).
  - split; [exact H2|]. split; [exact H3|].
    exact (proj1 (proj1 (proj2 (proj2 (proj2 (proj2 (proj2
             (selection_precedence vs)))))) _ _ H2 H3)).
Defined.

Lemma imageUrl_is_a_candidate_witness :
  let singleTweet :=
    fun (_ : string) (_ : LookupParams) =>
      Fulfilled (Samples.tweet_with (Some [Samples.video_preview])) in
  "https://pbs.twimg.com/media/v_thumb.jpg" <> EmptyString /\
  exists tweet ms m,
    singleTweet "1" lookupParams = Fulfilled tweet /\
    chain (includes tweet) media = Some ms /\
    In m ms /\
    (direct_photo_url m "https://pbs.twimg.com/media/v_thumb.jpg" \/
     photo_preview_url m "https://pbs.twimg.com/media/v_thumb.jpg" \/
     video_preview_url m "https://pbs.twimg.com/media/v_thumb.jpg").
Proof.
  intros singleTweet.
  apply (imageUrl_is_a_candidate singleTweet "1"
           (Build_ResolvedImage (Some "https://pbs.twimg.com/media/v_thumb.jpg")
                                (Some "look at my hat")));
    reflexivity.
Defined.

Lemma errors_fail_resolution_witness :
  exists message,
    outcome (fetchTweetData (fun _ _ => Fulfilled Samples.partial_error) "1")
    = Throw (ErrorObj message) /\
    Js.includes message "Could not find tweet with id: [1]." = true.
Proof.
  destruct (errors_fail_resolution
              (fun _ _ => Fulfilled Samples.partial_error) "1"
              Samples.partial_error Samples.not_found [] eq_refl eq_refl)
    as (message & Hthrow & Hdetail & _).
  exists message. split; [exact Hthrow|].
  apply (Hdetail "Could not find tweet with id: [1]."); [reflexivity | discriminate].
Defined.

Lemma no_image_is_a_warning_witness :
  fetchTweetData
    (fun _ _ => Fulfilled (Samples.tweet_with (Some [Samples.gif_preview]))) "1" =
  ([Console Level.log [Str "Fetching tweet from Twitter API: 1"];
    SingleTweet "1" lookupParams;
    Console Level.warn
      [Str "Tweet 1 does not appear to contain a usable image URL (photo or video thumbnail)."]],
   Return (Build_ResolvedImage None (Some "look at my hat"))).
Proof.
  apply (no_image_is_a_warning
           (fun _ _ => Fulfilled (Samples.tweet_with (Some [Samples.gif_preview])))
           "1" (Samples.tweet_with (Some [Samples.gif_preview]))
           {| Twitter.text := Some "look at my hat" |});
    try reflexivity.
  repeat split; nobody_before.
Defined.

End ResolverClaims.

(** ** Claims about the schema-validated verifier *)

Section SchemaClaims.
Import Schema.

Variable parse : Chat.Request -> Settled Chat.ParsedChatCompletion.

(** What the optional chain [result.choices[0]?.message?.parsed] reads. *)
Lemma askOpenAIAboutImage_fulfilled (imageUrl : string) resp :
  parse (request imageUrl) = Fulfilled resp ->
  askOpenAIAboutImage parse imageUrl =
  ([ChatParse (request imageUrl)],
   Return (chain_nullable (chain (nth_error (Chat.choices resp) 0) Chat.message)
                          Chat.parsed)).
Proof. intros H. unfold askOpenAIAboutImage. rewrite H. reflexivity. Qed.

Lemma askOpenAIAboutImage_rejected (imageUrl : string) e :
  parse (request imageUrl) = Rejected e ->
  exists line,
    askOpenAIAboutImage parse imageUrl =
    ([ChatParse (request imageUrl); Console Level.error line],
     Throw (ErrorObj ("Failed to get response from OpenAI about the image. "
                      ++ message_or EmptyString e))).
Proof. intros H. unfold askOpenAIAboutImage. rewrite H. eexists. reflexivity. Qed.

(** C7.  For every candidate image URL, [askOpenAIAboutImage] issues exactly
    one request, a chat request whose messages are, in order, the system
    instruction (the detection task) and a user message made of the
    output-format instruction, the three fixed reference image URLs and, as
    the last visual input, the candidate URL; the temperature is 0. *)
Theorem one_request_in_order (imageUrl : string) :
  requests (events (askOpenAIAboutImage parse imageUrl))
  = [ChatParse (request imageUrl)] /\
  Chat.messages (request imageUrl) =
  [Chat.system systemPrompt;
   Chat.user
     [Chat.text_part userPrompt;
      Chat.image_url_part
        "https://raw.githubusercontent.com/KuphJr/proof-of-hat/main/tunnl-hat-front.jpg";
      Chat.image_url_part
        "https://raw.githubusercontent.com/KuphJr/proof-of-hat/main/tunnl-hat-side-1.jpg";
      Chat.image_url_part
        "https://raw.githubusercontent.com/KuphJr/proof-of-hat/main/tunnl-hat-side-2.jpg";
      Chat.image_url_part imageUrl]] /\
  Chat.temperature (request imageUrl) = 0%Z /\
  length referenceImageUrls = 3 /\
  Js.includes systemPrompt
              "analyzes images to determine if they contain a black baseball hat"
  = true /\
  Js.includes userPrompt "return your answer in this exact JSON format:" = true.
Proof.
  split; [|repeat split].
  destruct (parse (request imageUrl)) as [resp|e] eqn:E.
  - rewrite (askOpenAIAboutImage_fulfilled _ _ E). reflexivity.
  - destruct (askOpenAIAboutImage_rejected _ _ E) as [line ->]. reflexivity.
Qed.

(** C8.  When the inference call is fulfilled with a response whose first
    choice carries a parsed object of the two-field schema,
    [askOpenAIAboutImage] returns that object, both fields as they came. *)
Theorem parsed_object_returned
        (imageUrl : string) resp first rest m (v : VerificationResponse) :
  parse (request imageUrl) = Fulfilled resp ->
  Chat.choices resp = first :: rest ->
  Chat.message first = Some m ->
  Chat.parsed m = value v ->
  outcome (askOpenAIAboutImage parse imageUrl) = Return (value v).
Proof.
  intros Hp Hc Hm Hv.
  rewrite (askOpenAIAboutImage_fulfilled _ _ Hp), Hc.
  simpl. rewrite Hm. simpl. rewrite Hv. reflexivity.
Qed.

(** C10.  When the inference call is fulfilled but the response has no
    choices, or its first choice has no message, or the message has no
    parsed content, [askOpenAIAboutImage] emits nothing but the request and
    returns an absent value: [undefined] where the optional chain stops
    short, the message's own nullish [parsed] otherwise.  It neither throws
    nor returns a verdict. *)
Theorem absent_verdict_is_returned (imageUrl : string) resp :
  parse (request imageUrl) = Fulfilled resp ->
  (Chat.choices resp = [] ->
   askOpenAIAboutImage parse imageUrl
   = ([ChatParse (request imageUrl)], Return undefined)) /\
  (forall first rest,
      Chat.choices resp = first :: rest ->
      Chat.message first = None ->
      askOpenAIAboutImage parse imageUrl
      = ([ChatParse (request imageUrl)], Return undefined)) /\
  (forall first rest m,
      Chat.choices resp = first :: rest ->
      Chat.message first = Some m ->
      is_absent (Chat.parsed m) = true ->
      askOpenAIAboutImage parse imageUrl
      = ([ChatParse (request imageUrl)], Return (Chat.parsed m)) /\
      forall v, Chat.parsed m <> value v).
Proof.
  intros Hp. rewrite (askOpenAIAboutImage_fulfilled _ _ Hp).
  split; [|split].
  - intros ->. reflexivity.
  - intros first rest -> Hm. simpl. rewrite Hm. reflexivity.
  - intros first rest m -> Hm Habs. simpl. rewrite Hm. split; [reflexivity|].
    intros v Hv. rewrite Hv in Habs. discriminate.
Qed.

End SchemaClaims.

Lemma parsed_object_returned_witness :
  outcome (Schema.askOpenAIAboutImage
             (fun _ => Fulfilled (Samples.completion (value Samples.hat_visible)))
             "https://pbs.twimg.com/media/a.jpg")
  = Return (value {| result := true; reasoning := "hat visible on subject's head" |}).
Proof.
  apply (parsed_object_returned
           (fun _ => Fulfilled (Samples.completion (value Samples.hat_visible)))
           "https://pbs.twimg.com/media/a.jpg"
           (Samples.completion (value Samples.hat_visible))
           {| Chat.message := Some {| Chat.parsed := value Samples.hat_visible |} |}
           []
           {| Chat.parsed := value Samples.hat_visible |});
    reflexivity.
Defined.

Lemma absent_verdict_is_returned_witness :
  let url := "https://pbs.twimg.com/media/a.jpg" in
  Schema.askOpenAIAboutImage (fun _ => Fulfilled {| Chat.choices := [] |}) url
  = ([ChatParse (Schema.request url)], Return undefined) /\
  Schema.askOpenAIAboutImage
    (fun _ => Fulfilled {| Chat.choices := [{| Chat.message := None |}] |}) url
  = ([ChatParse (Schema.request url)], Return undefined) /\
  Schema.askOpenAIAboutImage (fun _ => Fulfilled (Samples.completion null)) url
  = ([ChatParse (Schema.request url)], Return null).
Proof.
  intros url. split; [|split].
  - apply (proj1 (absent_verdict_is_returned
                    (fun _ => Fulfilled {| Chat.choices := [] |}) url
                    {| Chat.choices := [] |} eq_refl)).
    reflexivity.
  - apply (proj1 (proj2 (absent_verdict_is_returned
                           (fun _ => Fulfilled {| Chat.choices := [{| Chat.message := None |}] |})
                           url _ eq_refl))
                 {| Chat.message := None |} []);
      reflexivity.
  - apply (proj2 (proj2 (absent_verdict_is_returned
                           (fun _ => Fulfilled (Samples.completion null))
                           url _ eq_refl))
                 {| Chat.message := Some {| Chat.parsed := null |} |} []
                 {| Chat.parsed := null |});
      reflexivity.
Defined.

(** ** Claims about the free-text variant *)

Section FreeTextClaims.
Import FreeText.

Variable create : Responses.Request -> Settled Responses.Response.

Lemma askOpenAIAboutImage_events (imageUrl question : string) :
  requests (events (askOpenAIAboutImage create imageUrl question))
  = [ResponsesCreate (request question)].
Proof.
  unfold askOpenAIAboutImage.
  destruct (create (request question)) as [[[choices|]]|e]; reflexivity.
Qed.

(** C9.  The request that the free-text [askOpenAIAboutImage] sends is
    determined by the question text alone: two calls that differ only in
    [imageUrl] behave alike, the one request issued carries the question as
    its only content and no image input, and the script's own question
    mentions none of the three reference image URLs, nor any URL that starts
    with [http]. *)
Theorem request_ignores_image (imageUrl1 imageUrl2 question : string) :
  askOpenAIAboutImage create imageUrl1 question
  = askOpenAIAboutImage create imageUrl2 question /\
  requests (events (askOpenAIAboutImage create imageUrl1 question))
  = [ResponsesCreate (request question)] /\
  text_inputs (request question) = [question] /\
  image_inputs (request question) = [] /\
  (forall u, In u Schema.referenceImageUrls ->
             Js.includes FreeText.question u = false) /\
  (forall u, prefix "http" u = true -> Js.includes FreeText.question u = false).
Proof.
  split; [reflexivity|]. split; [apply askOpenAIAboutImage_events|].
  split; [reflexivity|]. split; [reflexivity|].
  assert (forall u, prefix "http" u = true ->
                    Js.includes FreeText.question u = false) as Hhttp.
  { intros u Hu. destruct (Js.includes FreeText.question u) eqn:E; [|reflexivity].
    pose proof (includes_prefix _ _ _ Hu E) as H.
    vm_compute in H. discriminate. }
  split; [|exact Hhttp].
  intros u Hu. apply Hhttp.
  repeat (destruct Hu as [<-|Hu]; [reflexivity|]). destruct Hu.
Qed.

End FreeTextClaims.


(** ** Exit codes *)

Section ExitCodes.

Variable toLowerCase : string -> string.
Variable singleTweet :
  string -> Twitter.LookupParams -> Settled Twitter.TweetV2SingleResult.

Lemma check_env_configured (env : Env) :
  configured env = true -> check_env env = ([], Return tt).
Proof.
  unfold configured, check_env. intros H.
  apply andb_true_iff in H. destruct H as [H1 H2]. rewrite H1, H2. reflexivity.
Qed.

Lemma check_env_missing (env : Env) :
  configured env = false ->
  exists line, check_env env = ([Console Level.error line], Exit 1).
Proof.
  unfold configured, check_env. intros H.
  destruct (truthy (OPENAI_API_KEY env)); [|eexists; reflexivity].
  destruct (truthy (TWITTER_BEARER_TOKEN env)); [discriminate|].
  eexists. reflexivity.
Qed.

(** The resolver and both verifiers end by returning or throwing; they never
    end the process themselves. *)
Lemma fetchTweetData_no_exit (tweetId : string) (code : Z) :
  outcome (Resolver.fetchTweetData singleTweet tweetId) <> Exit code.
Proof.
  rewrite ResolverFacts.fetchTweetData_outcome.
  destruct (singleTweet tweetId Resolver.lookupParams) as [tweet|e]; [|discriminate].
  destruct (Twitter.errors tweet) as [[|e0 es]|];
    try discriminate; destruct (Twitter.data tweet); discriminate.
Qed.

Lemma free_text_ask_no_exit create (imageUrl question : string) (code : Z) :
  outcome (FreeText.askOpenAIAboutImage create imageUrl question) <> Exit code.
Proof.
  unfold FreeText.askOpenAIAboutImage.
  destruct (create (FreeText.request question)) as [[[choices|]]|e]; discriminate.
Qed.

Lemma interpret_returns (openAIResponse : string) :
  outcome (FreeText.interpret toLowerCase openAIResponse) = Return tt.
Proof.
  unfold FreeText.interpret.
  destruct (FreeText.verdict (toLowerCase openAIResponse)) as [b|]; reflexivity.
Qed.

(** [main] of the free-text script catches whatever its body throws and only
    logs: it always runs to completion. *)
Lemma free_text_main_returns create :
  outcome (FreeText.main toLowerCase singleTweet create) = Return tt.
Proof.
  unfold FreeText.main.
  pose proof (fetchTweetData_no_exit FreeText.TWEET_ID) as Hfetch.
  destruct (Resolver.fetchTweetData singleTweet FreeText.TWEET_ID)
    as [tr [r|e|c]]; [| reflexivity | destruct (Hfetch c eq_refl)].
  run_eff.
  destruct (imageUrl r) as [[|c0 url]|]; try reflexivity.
  pose proof (free_text_ask_no_exit create (String c0 url) FreeText.question)
    as Hask.
  destruct (FreeText.askOpenAIAboutImage create (String c0 url) FreeText.question)
    as [tr' [v|e|c]]; [| reflexivity | destruct (Hask c eq_refl)].
  destruct v as [| |[|c1 s]]; try reflexivity.
  pose proof (interpret_returns (String c1 s)) as Hint.
  destruct (FreeText.interpret toLowerCase (String c1 s)) as [tr'' o].
  simpl in Hint. subst o. reflexivity.
Qed.

(** How the schema-validated script ends once both secrets are set. *)
Lemma schema_main_outcome parse :
  outcome (Schema.main singleTweet parse) =
  match outcome (Resolver.fetchTweetData singleTweet Schema.TWEET_ID) with
  | Return r =>
      match imageUrl r with
      | Some (String _ _ as url) =>
          match parse (Schema.request url) with
          | Fulfilled _ => Return tt
          | Rejected _ => Exit 1
          end
      | _ => Exit 1
      end
  | Throw _ => Exit 1
  | Exit code => Exit code
  end.
Proof.
  unfold Schema.main.
  destruct (Resolver.fetchTweetData singleTweet Schema.TWEET_ID)
    as [tr [r|e|c]]; try reflexivity.
  run_eff.
  destruct (imageUrl r) as [[|c0 url]|]; try reflexivity.
  unfold Schema.askOpenAIAboutImage.
  destruct (parse (Schema.request (String c0 url))); reflexivity.
Qed.

Lemma script_outcome (env : Env) (main : Eff unit) :
  configured env = true ->
  outcome (bind (check_env env) (fun _ => catch_unhandled main)) =
  match outcome main with
  | Throw _ => Exit 1
  | settled => settled
  end.
Proof.
  intros H. rewrite (check_env_configured env H).
  destruct main as [tr [[]|e|c]]; reflexivity.
Qed.

Lemma script_unconfigured (env : Env) (main : Eff unit) :
  configured env = false ->
  exists line,
    bind (check_env env) (fun _ => catch_unhandled main)
    = ([Console Level.error line], Exit 1).
Proof.
  intros H. destruct (check_env_missing env H) as [line ->].
  exists line. reflexivity.
Qed.

(** The free-text script constructs its OpenAI client before the checks. *)
Lemma newOpenAI_configured (env : Env) :
  configured env = true -> newOpenAI (OPENAI_API_KEY env) = ([], Return tt).
Proof.
  unfold configured. intros H. apply andb_true_iff in H. destruct H as [H _].
  destruct (OPENAI_API_KEY env); [reflexivity | discriminate].
Qed.

Lemma free_text_script_is_main create (env : Env) :
  configured env = true ->
  FreeText.script toLowerCase singleTweet create env
  = FreeText.main toLowerCase singleTweet create.
Proof.
  intros H. unfold FreeText.script, catch_unhandled.
  rewrite (newOpenAI_configured env H), (check_env_configured env H).
  pose proof (free_text_main_returns create) as Hmain.
  destruct (FreeText.main toLowerCase singleTweet create) as [tr o].
  simpl in Hmain. subst o. reflexivity.
Qed.

Lemma free_text_script_unconfigured create (env : Env) :
  configured env = false ->
  exit_code (FreeText.script toLowerCase singleTweet create env) = 1%Z /\
  requests (events (FreeText.script toLowerCase singleTweet create env)) = [].
Proof.
  intros H. unfold FreeText.script.
  destruct (script_unconfigured
              env (FreeText.main toLowerCase singleTweet create) H) as [line Hline].
  destruct (OPENAI_API_KEY env) as [key|]; [|split; reflexivity].
  unfold newOpenAI, ret.
  change (bind ([], Return tt) ?k) with (bind ([], Return tt) k).
  unfold bind at 1. rewrite Hline. split; reflexivity.
Qed.

End ExitCodes.

(** C2, as stated, fails in the free-text variant: with both secrets set and
    a tweet lookup that is rejected, [fetchTweetData] throws (the tweet is
    unresolved), [main] catches, logs a [false] result, and the process ends
    with code 0. *)
Lemma free_text_unresolved_exits_0 :
  let singleTweet :=
    fun (_ : string) (_ : Twitter.LookupParams) =>
      @Rejected Twitter.TweetV2SingleResult (ErrorObj "Request failed with code 404") in
  let create := fun _ : Responses.Request => Fulfilled (Samples.answer "yes") in
  configured Samples.env_ok = true /\
  outcome (Resolver.fetchTweetData singleTweet FreeText.TWEET_ID)
  = Throw (ErrorObj
             "Failed to process tweet 1921316529062265045: Request failed with code 404") /\
  exit_code (FreeText.script Samples.asciiLowerCase singleTweet create Samples.env_ok)
  = 0%Z /\
  exit_code (FreeText.script Samples.asciiLowerCase singleTweet create Samples.env_ok)
  <> 1%Z.
Proof. repeat split. discriminate. Qed.

(** C2, amended.  The schema-validated script exits with code 1 when a
    secret is missing (before any request is sent), when the tweet is not
    resolved, when the resolved tweet has no image URL and when the
    inference call fails, and with code 0 when it runs to completion.  The
    free-text script exits with code 1 when a secret is missing and with
    code 0 in every other run: an unresolved tweet, a missing image URL and a
    failed inference call are caught in [main] and logged as a [false]
    result, and an ambiguous answer is logged and assumed [false].  In both
    scripts an exception that escapes [main] ends the process with code 1. *)
Theorem exit_codes singleTweet (env : Env) :
  (forall parse,
      configured env = false ->
      exit_code (Schema.script singleTweet parse env) = 1%Z /\
      requests (events (Schema.script singleTweet parse env)) = []) /\
  (forall parse e,
      configured env = true ->
      outcome (Resolver.fetchTweetData singleTweet Schema.TWEET_ID) = Throw e ->
      exit_code (Schema.script singleTweet parse env) = 1%Z) /\
  (forall parse r,
      configured env = true ->
      outcome (Resolver.fetchTweetData singleTweet Schema.TWEET_ID) = Return r ->
      truthy (imageUrl r) = false ->
      exit_code (Schema.script singleTweet parse env) = 1%Z) /\
  (forall parse r u e,
      configured env = true ->
      outcome (Resolver.fetchTweetData singleTweet Schema.TWEET_ID) = Return r ->
      imageUrl r = Some u -> u <> EmptyString ->
      parse (Schema.request u) = Rejected e ->
      exit_code (Schema.script singleTweet parse env) = 1%Z) /\
  (forall parse r u resp,
      configured env = true ->
      outcome (Resolver.fetchTweetData singleTweet Schema.TWEET_ID) = Return r ->
      imageUrl r = Some u -> u <> EmptyString ->
      parse (Schema.request u) = Fulfilled resp ->
      exit_code (Schema.script singleTweet parse env) = 0%Z) /\
  (forall toLowerCase create,
      configured env = false ->
      exit_code (FreeText.script toLowerCase singleTweet create env) = 1%Z /\
      requests (events (FreeText.script toLowerCase singleTweet create env)) = []) /\
  (forall toLowerCase create,
      configured env = true ->
      exit_code (FreeText.script toLowerCase singleTweet create env) = 0%Z) /\
  (forall (main : Eff unit) e,
      outcome main = Throw e -> exit_code (catch_unhandled main) = 1%Z).
Proof.
  assert (forall parse, configured env = true ->
            exit_code (Schema.script singleTweet parse env) =
            match outcome (Schema.main singleTweet parse) with
            | Return _ => 0%Z
            | Throw _ => 1%Z
            | Exit code => code
            end) as Hschema.
  { intros parse Hc. unfold exit_code, Schema.script.
    rewrite (script_outcome env _ Hc).
    destruct (outcome (Schema.main singleTweet parse)) as [[]|e|c]; reflexivity. }
  repeat apply conj.
  - intros parse Hc. unfold Schema.script.
    destruct (script_unconfigured env (Schema.main singleTweet parse) Hc) as [line ->].
    split; reflexivity.
  - intros parse e Hc Hf. rewrite (Hschema parse Hc), schema_main_outcome, Hf.
    reflexivity.
  - intros parse r Hc Hf Hu. rewrite (Hschema parse Hc), schema_main_outcome, Hf.
    destruct (imageUrl r) as [[|c0 url]|]; try reflexivity. discriminate.
  - intros parse r u e Hc Hf Hu Hne Hp.
    rewrite (Hschema parse Hc), schema_main_outcome, Hf, Hu.
    destruct u as [|c0 url]; [contradiction|]. rewrite Hp. reflexivity.
  - intros parse r u resp Hc Hf Hu Hne Hp.
    rewrite (Hschema parse Hc), schema_main_outcome, Hf, Hu.
    destruct u as [|c0 url]; [contradiction|]. rewrite Hp. reflexivity.
  - intros toLowerCase create Hc.
    exact (free_text_script_unconfigured toLowerCase singleTweet create env Hc).
  - intros toLowerCase create Hc. unfold exit_code.
    rewrite (free_text_script_is_main toLowerCase singleTweet create env Hc),
      free_text_main_returns.
    reflexivity.
  - intros main e H. destruct main as [tr o]. simpl in H. subst o. reflexivity.
Qed.

Lemma exit_codes_witness :
  let found :=
    fun (_ : string) (_ : Twitter.LookupParams) =>
      Fulfilled (Samples.tweet_with (Some [Samples.photo_both])) in
  let missing :=
    fun (_ : string) (_ : Twitter.LookupParams) =>
      Fulfilled (Samples.tweet_with None) in
  let parse :=
    fun _ : Chat.Request =>
      Fulfilled (Samples.completion (value Samples.hat_visible)) in
  let create := fun _ : Responses.Request => Fulfilled (Samples.answer "Maybe") in
  let no_key := {| OPENAI_API_KEY := None; TWITTER_BEARER_TOKEN := Some "bearer" |} in
  exit_code (Schema.script found parse no_key) = 1%Z /\
  exit_code (Schema.script missing parse Samples.env_ok) = 1%Z /\
  exit_code (Schema.script found parse Samples.env_ok) = 0%Z /\
  exit_code (FreeText.script Samples.asciiLowerCase missing create Samples.env_ok) = 0%Z /\
  exit_code (FreeText.script Samples.asciiLowerCase found create Samples.env_ok) = 0%Z.
Proof.
  intros found missing parse create no_key.
  split; [|split; [|split; [|split]]].
  - apply (proj1 (exit_codes found no_key)). reflexivity.
  - apply (proj1 (proj2 (proj2 (exit_codes missing Samples.env_ok)))
                 parse (Build_ResolvedImage None (Some "look at my hat")));
      reflexivity.
  - apply (proj1 (proj2 (proj2 (proj2 (proj2 (exit_codes found Samples.env_ok)))))
                 parse
                 (Build_ResolvedImage (Some "https://pbs.twimg.com/media/a.jpg")
                                      (Some "look at my hat"))
                 "https://pbs.twimg.com/media/a.jpg"
                 (Samples.completion (value Samples.hat_visible)));
      try reflexivity.
    discriminate.
  - apply (proj1 (proj2 (proj2 (proj2 (proj2 (proj2 (proj2
             (exit_codes missing Samples.env_ok)))))))).
    reflexivity.
  - apply (proj1 (proj2 (proj2 (proj2 (proj2 (proj2 (proj2
             (exit_codes found Samples.env_ok)))))))).
    reflexivity.
Defined.

(** * Further properties of the two scripts *)

(** ** Substrings *)

Section Substrings.

Lemma prefix_iff (k s : string) :
  prefix k s = true <-> exists b, s = (k ++ b)%string.
Proof.
  revert s. induction k as [|c k IH]; intros s.
  - split; [intros _; exists s; reflexivity | intros _; destruct s; reflexivity].
  - destruct s as [|c' s]; simpl.
    + split; [discriminate | intros [b Hb]; discriminate].
    + destruct (ascii_dec c c') as [->|Hne].
      * rewrite IH. split; intros [b Hb]; exists b; [now rewrite Hb | now injection Hb].
      * split; [discriminate | intros [b Hb]; simpl in Hb; congruence].
Qed.

(** [includes] finds exactly the contiguous occurrences. *)
Lemma includes_iff (s k : string) :
  Js.includes s k = true <-> exists a b, s = (a ++ k ++ b)%string.
Proof.
  induction s as [|c s IH].
  - rewrite includes_nil, prefix_iff. split.
    + intros [b Hb]. exists EmptyString, b. exact Hb.
    + intros (a & b & H). destruct a; [exists b; exact H|discriminate].
  - rewrite includes_cons, orb_true_iff, prefix_iff, IH. split.
    + intros [[b Hb]|(a & b & H)].
      * exists EmptyString, b. exact Hb.
      * exists (String c a), b. simpl. now rewrite H.
    + intros (a & b & H). destruct a as [|c' a].
      * left. exists b. exact H.
      * right. exists a, b. simpl in H. now injection H.
Qed.

Lemma includes_trans (s k j : string) :
  Js.includes s k = true -> Js.includes k j = true -> Js.includes s j = true.
Proof.
  rewrite !includes_iff. intros (a & b & ->) (c & d & ->).
  exists (a ++ c)%string, (d ++ b)%string.
  rewrite !append_assoc. reflexivity.
Qed.

End Substrings.

(** ** Traces of composed computations *)

Section Traces.

Lemma requests_app (tr tr' : list Event) :
  requests (tr ++ tr') = requests tr ++ requests tr'.
Proof. apply filter_app. Qed.

Lemma events_bind {A B : Type} (m : Eff A) (k : A -> Eff B) :
  events (bind m k) =
  events m ++ match outcome m with
              | Return a => events (k a)
              | _ => []
              end.
Proof.
  destruct m as [tr [a|e|c]]; simpl; rewrite ?app_nil_r; try reflexivity.
  destruct (k a); reflexivity.
Qed.

Lemma outcome_bind {A B : Type} (m : Eff A) (k : A -> Eff B) :
  outcome (bind m k) =
  match outcome m with
  | Return a => outcome (k a)
  | Throw e => Throw e
  | Exit c => Exit c
  end.
Proof.
  destruct m as [tr [a|e|c]]; simpl; try reflexivity.
  destruct (k a); reflexivity.
Qed.

Lemma events_try_catch {A : Type} (m : Eff A) (h : Thrown -> Eff A) :
  events (try_catch m h) =
  events m ++ match outcome m with
              | Throw e => events (h e)
              | _ => []
              end.
Proof.
  destruct m as [tr [a|e|c]]; simpl; rewrite ?app_nil_r; try reflexivity.
  destruct (h e); reflexivity.
Qed.

Lemma outcome_try_catch {A : Type} (m : Eff A) (h : Thrown -> Eff A) :
  outcome (try_catch m h) =
  match outcome m with
  | Throw e => outcome (h e)
  | settled => settled
  end.
Proof.
  destruct m as [tr [a|e|c]]; simpl; try reflexivity.
  destruct (h e); reflexivity.
Qed.

End Traces.

(** ** The resolver: failures, requests and log lines *)

Section ResolverRuns.
Import Twitter Resolver Rules ResolverFacts.

Variable singleTweet : string -> LookupParams -> Settled TweetV2SingleResult.

(** Every run of [fetchTweetData], events and outcome, by cases on what the
    lookup settled to. *)
Lemma fetchTweetData_run (tweetId : string) :
  fetchTweetData singleTweet tweetId =
  let hello := Console Level.log [Str ("Fetching tweet from Twitter API: " ++ tweetId)] in
  let call := SingleTweet tweetId lookupParams in
  let rethrown message :=
    Console Level.error
      [Str ("Error fetching or processing tweet " ++ tweetId ++ " from API:");
       Str message; Caught (ErrorObj message)] in
  match singleTweet tweetId lookupParams with
  | Rejected e =>
      ([hello; call;
        Console Level.error
          [Str ("Error fetching or processing tweet " ++ tweetId ++ " from API:");
           Str (message_or "Unknown error" e); Caught e]],
       Throw (failure tweetId (message_or "Unknown error" e)))
  | Fulfilled tweet =>
      match errors tweet with
      | Some ((e0 :: _) as es) =>
          let errorDetail := show (or_else (detail e0) (title e0)) in
          ([hello; call;
            Console Level.error
              [Str "Error fetching tweet:"; Str errorDetail; ErrorList es];
            rethrown ("Failed to fetch tweet: " ++ errorDetail)%string],
           Throw (failure tweetId ("Failed to fetch tweet: " ++ errorDetail)))
      | _ =>
          match data tweet with
          | None =>
              ([hello; call; rethrown "Tweet data not found in API response."],
               Throw (failure tweetId "Tweet data not found in API response."))
          | Some d =>
              let imageUrl := selectImageUrl (chain (includes tweet) media) in
              (hello :: call ::
                 (if truthy imageUrl then []
                  else [Console Level.warn [Str (warning tweetId)]]),
               Return (Build_ResolvedImage imageUrl (Twitter.text d)))
          end
      end
  end.
Proof.
  unfold fetchTweetData, failure.
  destruct (singleTweet tweetId lookupParams) as [tweet|[m|v]]; try reflexivity.
  run_eff.
  destruct (errors tweet) as [[|e0 es]|];
    try reflexivity;
    (destruct (data tweet) as [d|]; [|reflexivity]);
    destruct (truthy (selectImageUrl (chain (includes tweet) media)));
    reflexivity.
Qed.

(** The selection never yields the empty string. *)
Lemma selectImageUrl_truthy (media : option (list MediaObjectV2)) :
  truthy (selectImageUrl media) = false -> selectImageUrl media = None.
Proof.
  destruct (selectImageUrl media) as [u|] eqn:E; [|reflexivity].
  destruct (selectImageUrl_sound _ _ E) as [Hne _].
  rewrite (truthy_Some u Hne). discriminate.
Qed.

(** A lookup that is rejected is rethrown as an [Error] whose message names
    the tweet and carries the message of the rejection when that is an
    [Error], and [Unknown error] when something else was thrown. *)
Theorem resolver_lookup_rejected (tweetId : string) (e : Thrown) :
  singleTweet tweetId lookupParams = Rejected e ->
  (forall m, e = ErrorObj m ->
             outcome (fetchTweetData singleTweet tweetId)
             = Throw (ErrorObj ("Failed to process tweet " ++ tweetId ++ ": " ++ m))) /\
  (forall v, e = NonError v ->
             outcome (fetchTweetData singleTweet tweetId)
             = Throw (ErrorObj ("Failed to process tweet " ++ tweetId
                                ++ ": Unknown error"))) /\
  filter is_error_line (events (fetchTweetData singleTweet tweetId))
  = [Console Level.error
       [Str ("Error fetching or processing tweet " ++ tweetId ++ " from API:");
        Str (message_or "Unknown error" e); Caught e]].
Proof.
  intros H. rewrite fetchTweetData_run, H.
  split; [|split]; [intros m -> | intros v -> |]; reflexivity.
Qed.

(** A response without error entries and without tweet data makes
    [fetchTweetData] throw, whatever media the response includes. *)
Theorem resolver_missing_data (tweetId : string) (tweet : TweetV2SingleResult) :
  singleTweet tweetId lookupParams = Fulfilled tweet ->
  has_errors tweet = false ->
  data tweet = None ->
  outcome (fetchTweetData singleTweet tweetId)
  = Throw (ErrorObj ("Failed to process tweet " ++ tweetId
                     ++ ": Tweet data not found in API response.")).
Proof.
  intros Hst Herr Hd. rewrite fetchTweetData_run, Hst.
  unfold has_errors in Herr.
  destruct (errors tweet) as [[|e0 es]|]; try discriminate;
    rewrite Hd; reflexivity.
Qed.

(** [fetchTweetData] returns exactly when the lookup is fulfilled with a
    response that has no error entries and has tweet data; what it returns
    is then the selected image URL and the tweet's text as received. *)
Theorem resolver_returns_iff (tweetId : string) (r : ResolvedImage) :
  outcome (fetchTweetData singleTweet tweetId) = Return r <->
  exists tweet d,
    singleTweet tweetId lookupParams = Fulfilled tweet /\
    has_errors tweet = false /\
    data tweet = Some d /\
    r = Build_ResolvedImage (selectImageUrl (chain (includes tweet) media))
                            (Twitter.text d).
Proof.
  rewrite fetchTweetData_outcome. unfold has_errors. split.
  - destruct (singleTweet tweetId lookupParams) as [tweet|e]; [|discriminate].
    destruct (errors tweet) as [[|e0 es]|] eqn:E; try discriminate;
      (destruct (data tweet) as [d|] eqn:D; [|discriminate]);
      intros [= <-]; exists tweet, d; rewrite E; auto.
  - intros (tweet & d & -> & Herr & Hd & ->).
    destruct (errors tweet) as [[|e0 es]|]; try discriminate;
      rewrite Hd; reflexivity.
Qed.

(** Whatever [fetchTweetData] throws is an [Error] whose message starts with
    [Failed to process tweet <id>: ]; it never ends the process itself. *)
Theorem resolver_failures_wrapped (tweetId : string) :
  (forall e, outcome (fetchTweetData singleTweet tweetId) = Throw e ->
             exists message,
               e = ErrorObj ("Failed to process tweet " ++ tweetId ++ ": " ++ message)) /\
  (forall code, outcome (fetchTweetData singleTweet tweetId) <> Exit code).
Proof.
  rewrite fetchTweetData_outcome. unfold failure.
  destruct (singleTweet tweetId lookupParams) as [tweet|e0].
  - destruct (errors tweet) as [[|e0 es]|]; try destruct (data tweet) as [d|];
      (split; [intros e [= <-]; eexists; reflexivity || discriminate
              | intros code; discriminate])
      || (split; [intros e; discriminate | intros code; discriminate]).
  - split; [intros e [= <-]; eexists; reflexivity | intros code; discriminate].
Qed.

(** In every run [fetchTweetData] first logs its diagnostic, then sends the
    lookup, and sends no other request: one lookup of the given tweet with
    the media expansion and the three media fields. *)
Theorem resolver_one_lookup (tweetId : string) :
  (exists rest,
      events (fetchTweetData singleTweet tweetId)
      = Console Level.log [Str ("Fetching tweet from Twitter API: " ++ tweetId)]
          :: SingleTweet tweetId
               {| expansions := ["attachments.media_keys"];
                  media_fields := ["url"; "type"; "preview_image_url"] |}
          :: rest /\
      requests rest = []) /\
  requests (events (fetchTweetData singleTweet tweetId))
  = [SingleTweet tweetId lookupParams].
Proof.
  rewrite fetchTweetData_run. cbv zeta.
  destruct (singleTweet tweetId lookupParams) as [tweet|e].
  - destruct (errors tweet) as [[|e0 es]|]; try destruct (data tweet) as [d|];
      try destruct (truthy (selectImageUrl (chain (includes tweet) media)));
      (split; [eexists; split; reflexivity | reflexivity]).
  - split; [eexists; split; reflexivity | reflexivity].
Qed.

(** The log level tells how the resolver ended: it writes a warning exactly
    when it returns without an image URL, and an error line exactly when it
    throws. *)
Theorem resolver_log_levels (tweetId : string) :
  (existsb is_warning (events (fetchTweetData singleTweet tweetId)) = true <->
   exists r, outcome (fetchTweetData singleTweet tweetId) = Return r /\
             imageUrl r = None) /\
  (existsb is_error_line (events (fetchTweetData singleTweet tweetId)) = true <->
   exists e, outcome (fetchTweetData singleTweet tweetId) = Throw e).
Proof.
  rewrite fetchTweetData_run. cbv zeta.
  destruct (singleTweet tweetId lookupParams) as [tweet|e].
  2:{ simpl. split.
      - split; [discriminate | intros (r & H & _); discriminate].
      - split; [eauto | reflexivity]. }
  destruct (errors tweet) as [[|e0 es]|]; try destruct (data tweet) as [d|];
    try (simpl; split;
         [ split; [discriminate | intros (r & H & _); discriminate]
         | split; [eauto | reflexivity] ]);
    (destruct (truthy (selectImageUrl (chain (includes tweet) media))) eqn:T;
     simpl; split;
     [ split; [discriminate|];
       intros (r & [= <-] & H); simpl in H; rewrite H in T; discriminate
     | split; [discriminate | intros [e H]; discriminate]
     | split; [|reflexivity];
       intros _; eexists; split; [reflexivity|];
       apply selectImageUrl_truthy; exact T
     | split; [discriminate | intros [e H]; discriminate] ]).
Qed.

End ResolverRuns.

Section SelectionScope.
Import Twitter Resolver ResolverFacts.

Lemma find_filter {A : Type} (f g : A -> bool) (l : list A) :
  (forall x, f x = true -> g x = true) ->
  find f (filter g l) = find f l.
Proof.
  intros Hfg. induction l as [|x l IH]; simpl; [reflexivity|].
  destruct (g x) eqn:G; simpl.
  - rewrite IH. reflexivity.
  - destruct (f x) eqn:F; [|exact IH].
    rewrite (Hfg x F) in G. discriminate.
Qed.

(** Attachments that are neither photos nor videos (an animated GIF, say)
    take no part in the selection: dropping them from the media list leaves
    the selected URL unchanged. *)
Theorem selection_ignores_other_types (ms : list MediaObjectV2) :
  selectImageUrl (Some (filter photo_or_video ms)) = selectImageUrl (Some ms).
Proof.
  rewrite !selectImageUrl_find.
  rewrite !find_filter; [reflexivity| | |];
    intros x H; unfold photo_or_video;
    apply andb_true_iff in H; destruct H as [H _]; rewrite H;
    auto using orb_true_r.
Qed.

End SelectionScope.

(** *** The resolver's failures at sample inputs *)

Lemma resolver_lookup_rejected_witness :
  let rate_limited :=
    fun (_ : string) (_ : Twitter.LookupParams) =>
      @Rejected Twitter.TweetV2SingleResult (ErrorObj "Request failed with code 429") in
  outcome (Resolver.fetchTweetData rate_limited "1")
  = Throw (ErrorObj "Failed to process tweet 1: Request failed with code 429").
Proof.
  intros rate_limited.
  apply (proj1 (resolver_lookup_rejected
                  rate_limited "1" (ErrorObj "Request failed with code 429") eq_refl)
               "Request failed with code 429" eq_refl).
Defined.

Lemma resolver_missing_data_witness :
  let empty_response :=
    {| Twitter.data := None;
       Twitter.includes := Some {| Twitter.media := Some [Samples.photo_both] |};
       Twitter.errors := Some [] |} in
  outcome (Resolver.fetchTweetData (fun _ _ => Fulfilled empty_response) "1")
  = Throw (ErrorObj "Failed to process tweet 1: Tweet data not found in API response.").
Proof.
  intros empty_response.
  apply (resolver_missing_data (fun _ _ => Fulfilled empty_response) "1" empty_response);
    reflexivity.
Defined.

Lemma resolver_failures_wrapped_witness :
  exists message,
    ErrorObj "Failed to process tweet 1: Failed to fetch tweet: Could not find tweet with id: [1]."
    = ErrorObj ("Failed to process tweet " ++ "1" ++ ": " ++ message).
Proof.
  apply (proj1 (resolver_failures_wrapped
                  (fun _ _ => Fulfilled Samples.partial_error) "1")).
  reflexivity.
Defined.

(** ** The scripts, end to end *)

Section ScriptRuns.

Variable toLowerCase : string -> string.
Variable singleTweet :
  string -> Twitter.LookupParams -> Settled Twitter.TweetV2SingleResult.
Variable parse : Chat.Request -> Settled Chat.ParsedChatCompletion.
Variable create : Responses.Request -> Settled Responses.Response.

Lemma fetchTweetData_requests (tweetId : string) :
  requests (events (Resolver.fetchTweetData singleTweet tweetId))
  = [SingleTweet tweetId Resolver.lookupParams].
Proof.
  rewrite fetchTweetData_run. cbv zeta.
  destruct (singleTweet tweetId Resolver.lookupParams) as [tweet|e]; [|reflexivity].
  destruct (Twitter.errors tweet) as [[|e0 es]|];
    try destruct (Twitter.data tweet) as [d|];
    try destruct (truthy (Resolver.selectImageUrl
                            (chain (Twitter.includes tweet) Twitter.media)));
    reflexivity.
Qed.

(** Brings a trace built by nested binds and handlers to one right-nested
    list. *)
Ltac tidy_trace :=
  cbn [app show]; rewrite <- ?app_assoc; cbn [app]; rewrite ?app_nil_r.

Lemma bind_ret {A B : Type} (a : A) (k : A -> Eff B) : bind ([], Return a) k = k a.
Proof. unfold bind. destruct (k a). reflexivity. Qed.

Lemma try_catch_settled {A : Type} (m : Eff A) (h : Thrown -> Eff A) :
  (forall e, outcome m <> Throw e) -> try_catch m h = m.
Proof.
  destruct m as [tr [a|e|c]]; intros H; try reflexivity.
  destruct (H e eq_refl).
Qed.

Lemma schema_main_no_throw (e : Thrown) :
  outcome (Schema.main singleTweet parse) <> Throw e.
Proof.
  rewrite schema_main_outcome.
  destruct (outcome (Resolver.fetchTweetData singleTweet Schema.TWEET_ID))
    as [r|e0|c]; try discriminate.
  destruct (imageUrl r) as [[|c0 u]|]; try discriminate.
  destruct (parse (Schema.request (String c0 u))); discriminate.
Qed.

Lemma free_text_main_no_throw (e : Thrown) :
  outcome (FreeText.main toLowerCase singleTweet create) <> Throw e.
Proof. rewrite free_text_main_returns. discriminate. Qed.

(** With both secrets set, each script is its [main]. *)
Lemma schema_script_configured (env : Env) :
  configured env = true ->
  Schema.script singleTweet parse env = Schema.main singleTweet parse.
Proof.
  intros H. unfold Schema.script, catch_unhandled.
  rewrite (check_env_configured env H), bind_ret.
  apply try_catch_settled, schema_main_no_throw.
Qed.

Lemma free_text_script_configured (env : Env) :
  configured env = true ->
  FreeText.script toLowerCase singleTweet create env = FreeText.main toLowerCase singleTweet create.
Proof.
  intros H. unfold FreeText.script, catch_unhandled.
  rewrite (newOpenAI_configured env H), (check_env_configured env H), !bind_ret.
  apply try_catch_settled, free_text_main_no_throw.
Qed.

(** [main] of [src/index.ts] once the tweet is resolved with an image. *)
Lemma schema_main_asked (r : ResolvedImage) (u : string) :
  outcome (Resolver.fetchTweetData singleTweet Schema.TWEET_ID) = Return r ->
  imageUrl r = Some u -> u <> EmptyString ->
  Schema.main singleTweet parse =
  (Console Level.log [Str ("Processing Tweet ID: " ++ Schema.TWEET_ID)]
     :: events (Resolver.fetchTweetData singleTweet Schema.TWEET_ID)
     ++ Console Level.log [Str ("Image URL: " ++ u)]
     :: events (Schema.askOpenAIAboutImage parse u)
     ++ match outcome (Schema.askOpenAIAboutImage parse u) with
        | Return v => [Console Level.log [Parsed v]]
        | Throw e =>
            [Console Level.error
               [Str "Error in main execution:";
                Str (message_or "An unknown error occurred" e); Caught e]]
        | Exit _ => []
        end,
   match outcome (Schema.askOpenAIAboutImage parse u) with
   | Return _ => Return tt
   | Throw _ => Exit 1
   | Exit code => Exit code
   end).
Proof.
  intros Hf Hu Hne. unfold Schema.main.
  destruct (Resolver.fetchTweetData singleTweet Schema.TWEET_ID) as [tr o].
  simpl in Hf. subst o.
  destruct u as [|c0 u]; [contradiction|].
  cbv beta iota zeta delta [bind try_catch console ret throw process_exit
                            events outcome fst snd].
  rewrite Hu.
  destruct (Schema.askOpenAIAboutImage parse (String c0 u)) as [tr' [v|e|c]];
    tidy_trace; reflexivity.
Qed.

(** [main] of either script when the resolver throws. *)
Lemma schema_main_unresolved (e : Thrown) :
  outcome (Resolver.fetchTweetData singleTweet Schema.TWEET_ID) = Throw e ->
  Schema.main singleTweet parse =
  (Console Level.log [Str ("Processing Tweet ID: " ++ Schema.TWEET_ID)]
     :: events (Resolver.fetchTweetData singleTweet Schema.TWEET_ID)
     ++ [Console Level.error
           [Str "Error in main execution:";
            Str (message_or "An unknown error occurred" e); Caught e]],
   Exit 1).
Proof.
  intros Hf. unfold Schema.main.
  destruct (Resolver.fetchTweetData singleTweet Schema.TWEET_ID) as [tr o].
  simpl in Hf. subst o. reflexivity.
Qed.

Lemma free_text_main_unresolved (e : Thrown) :
  outcome (Resolver.fetchTweetData singleTweet FreeText.TWEET_ID) = Throw e ->
  FreeText.main toLowerCase singleTweet create =
  (Console Level.log [Str ("Processing Tweet ID: " ++ FreeText.TWEET_ID)]
     :: events (Resolver.fetchTweetData singleTweet FreeText.TWEET_ID)
     ++ [Console Level.error
           [Str "Error in main execution:";
            Str (message_or "An unknown error occurred" e); Caught e];
         Console Level.log
           [Str ("Result for " ++ dq ++ FreeText.asked ++ dq
                 ++ ": false (due to error: "
                 ++ message_or "An unknown error occurred" e ++ ")")]],
   Return tt).
Proof.
  intros Hf. unfold FreeText.main.
  destruct (Resolver.fetchTweetData singleTweet FreeText.TWEET_ID) as [tr o].
  simpl in Hf. subst o. reflexivity.
Qed.

(** [main] of the free-text script once the tweet is resolved with an
    image. *)
Lemma free_text_main_asked (r : ResolvedImage) (u : string) :
  outcome (Resolver.fetchTweetData singleTweet FreeText.TWEET_ID) = Return r ->
  imageUrl r = Some u -> u <> EmptyString ->
  events (FreeText.main toLowerCase singleTweet create) =
  Console Level.log [Str ("Processing Tweet ID: " ++ FreeText.TWEET_ID)]
    :: events (Resolver.fetchTweetData singleTweet FreeText.TWEET_ID)
    ++ events (FreeText.askOpenAIAboutImage create u FreeText.question)
    ++ match outcome (FreeText.askOpenAIAboutImage create u FreeText.question) with
       | Return (value (String _ _ as openAIResponse)) =>
           events (FreeText.interpret toLowerCase openAIResponse)
       | Return _ =>
           [Console Level.log [Str "OpenAI did not provide a response."];
            Console Level.log
              [Str ("Result for " ++ dq ++ FreeText.asked ++ dq
                    ++ ": false (no OpenAI response)")]]
       | Throw e =>
           [Console Level.error
              [Str "Error in main execution:";
               Str (message_or "An unknown error occurred" e); Caught e];
            Console Level.log
              [Str ("Result for " ++ dq ++ FreeText.asked ++ dq
                    ++ ": false (due to error: "
                    ++ message_or "An unknown error occurred" e ++ ")")]]
       | Exit _ => []
       end.
Proof.
  intros Hf Hu Hne. unfold FreeText.main.
  destruct (Resolver.fetchTweetData singleTweet FreeText.TWEET_ID) as [tr o].
  simpl in Hf. subst o.
  destruct u as [|c0 u]; [contradiction|].
  cbv beta iota zeta delta [bind try_catch console ret throw process_exit
                            events outcome fst snd].
  rewrite Hu.
  destruct (FreeText.askOpenAIAboutImage create (String c0 u) FreeText.question)
    as [tr' [[| |[|c1 s]]|e|c]]; try (tidy_trace; reflexivity).
  pose proof (interpret_returns toLowerCase (String c1 s)) as Hint.
  destruct (FreeText.interpret toLowerCase (String c1 s)) as [tr'' o].
  simpl in Hint. subst o. tidy_trace. reflexivity.
Qed.

End ScriptRuns.

(** ** Properties of the verifiers and of the scripts *)

(** [src/index.ts], [askOpenAIAboutImage]: a rejected inference call is
    logged once and rethrown as an [Error] whose message is the fixed
    context sentence followed by the message of the rejection (nothing, when
    the rejection is not an [Error]); no verdict is made up. *)
Theorem schema_inference_rejected parse (imageUrl : string) (e : Thrown) :
  parse (Schema.request imageUrl) = Rejected e ->
  (forall m, e = ErrorObj m ->
             outcome (Schema.askOpenAIAboutImage parse imageUrl)
             = Throw (ErrorObj ("Failed to get response from OpenAI about the image. "
                                ++ m))) /\
  (forall v, e = NonError v ->
             outcome (Schema.askOpenAIAboutImage parse imageUrl)
             = Throw (ErrorObj "Failed to get response from OpenAI about the image. ")) /\
  events (Schema.askOpenAIAboutImage parse imageUrl)
  = [ChatParse (Schema.request imageUrl);
     Console Level.error
       [Str "Error asking OpenAI:";
        match e with
        | ErrorObj m => Str m
        | NonError _ => Caught e
        end]].
Proof.
  intros H. unfold Schema.askOpenAIAboutImage. rewrite H.
  split; [|split]; [intros m -> | intros v -> |]; reflexivity.
Qed.

Lemma schema_inference_rejected_witness :
  outcome (Schema.askOpenAIAboutImage
             (fun _ => Rejected (ErrorObj "429 Too Many Requests"))
             "https://pbs.twimg.com/media/a.jpg")
  = Throw (ErrorObj
             "Failed to get response from OpenAI about the image. 429 Too Many Requests").
Proof.
  apply (proj1 (schema_inference_rejected
                  (fun _ => Rejected (ErrorObj "429 Too Many Requests"))
                  "https://pbs.twimg.com/media/a.jpg"
                  (ErrorObj "429 Too Many Requests") eq_refl)
               "429 Too Many Requests" eq_refl).
Defined.

(** The free-text [askOpenAIAboutImage] returns exactly when the call is
    fulfilled with a response that has a [choices] array; a rejected call,
    and a response object without [choices] (indexing [undefined] throws),
    both end in an [Error] that starts with the context sentence. *)
Theorem free_text_inference_failures create (imageUrl question : string) :
  (forall e,
      create (FreeText.request question) = Rejected e ->
      outcome (FreeText.askOpenAIAboutImage create imageUrl question)
      = Throw (ErrorObj ("Failed to get response from OpenAI about the image. "
                         ++ message_or EmptyString e))) /\
  (forall resp,
      create (FreeText.request question) = Fulfilled resp ->
      Responses.choices resp = None ->
      exists m,
        outcome (FreeText.askOpenAIAboutImage create imageUrl question)
        = Throw (ErrorObj ("Failed to get response from OpenAI about the image. "
                           ++ m))) /\
  (forall v,
      outcome (FreeText.askOpenAIAboutImage create imageUrl question) = Return v <->
      exists resp choices,
        create (FreeText.request question) = Fulfilled resp /\
        Responses.choices resp = Some choices /\
        v = chain_nullable (chain (nth_error choices 0) Responses.message)
                           Responses.msg_content).
Proof.
  unfold FreeText.askOpenAIAboutImage.
  split; [|split].
  - intros e ->. reflexivity.
  - intros resp -> Hc. destruct resp as [cs]. simpl in Hc. subst cs.
    eexists. reflexivity.
  - intros v. split.
    + destruct (create (FreeText.request question)) as [[[cs|]]|e];
        try discriminate.
      intros [= <-]. eexists _, cs. repeat split.
    + intros (resp & cs & -> & Hc & ->). destruct resp as [cs'].
      simpl in Hc. subst cs'. reflexivity.
Qed.

Lemma free_text_inference_failures_witness :
  (outcome (FreeText.askOpenAIAboutImage
              (fun _ => Rejected (NonError "timeout")) "u" "q")
   = Throw (ErrorObj "Failed to get response from OpenAI about the image. ")) /\
  exists m,
    outcome (FreeText.askOpenAIAboutImage
               (fun _ => Fulfilled {| Responses.choices := None |}) "u" "q")
    = Throw (ErrorObj ("Failed to get response from OpenAI about the image. " ++ m)).
Proof.
  split.
  - apply (proj1 (free_text_inference_failures
                    (fun _ => Rejected (NonError "timeout")) "u" "q")
                 (NonError "timeout") eq_refl).
  - apply (proj1 (proj2 (free_text_inference_failures
                           (fun _ => Fulfilled {| Responses.choices := None |})
                           "u" "q"))
                 {| Responses.choices := None |}); reflexivity.
Defined.

(** The remote requests of a run of [src/index.ts], in order: none when a
    secret is missing; otherwise one tweet lookup, followed by one inference
    request exactly when the resolver returned an image URL, and that request
    is the one built from this URL. *)
Theorem schema_requests singleTweet parse (env : Env) :
  requests (events (Schema.script singleTweet parse env)) =
  if configured env then
    SingleTweet Schema.TWEET_ID Resolver.lookupParams ::
    match outcome (Resolver.fetchTweetData singleTweet Schema.TWEET_ID) with
    | Return r =>
        match imageUrl r with
        | Some (String _ _ as u) => [ChatParse (Schema.request u)]
        | _ => []
        end
    | _ => []
    end
  else [].
Proof.
  destruct (configured env) eqn:C.
  2:{ unfold Schema.script.
      destruct (script_unconfigured env (Schema.main singleTweet parse) C)
        as [line ->].
      reflexivity. }
  rewrite (schema_script_configured singleTweet parse env C).
  unfold Schema.main.
  rewrite events_bind, requests_app. simpl (outcome (console _ _)). cbv iota.
  rewrite events_try_catch, requests_app, events_bind, requests_app,
    fetchTweetData_requests, outcome_bind.
  destruct (outcome (Resolver.fetchTweetData singleTweet Schema.TWEET_ID))
    as [r|e|c]; try reflexivity.
  destruct (imageUrl r) as [[|c0 u]|]; try reflexivity.
  destruct (parse (Schema.request (String c0 u))) as [resp|e] eqn:P.
  - rewrite (askOpenAIAboutImage_fulfilled parse _ _ P). reflexivity.
  - destruct (askOpenAIAboutImage_rejected parse _ _ P) as [line ->]. reflexivity.
Qed.

(** The remote requests of a run of the free-text script, in order: none
    when a secret is missing; otherwise one tweet lookup, followed by one
    inference request exactly when the resolver returned an image URL; the
    request is built from the question alone. *)
Theorem free_text_requests toLowerCase singleTweet create (env : Env) :
  requests (events (FreeText.script toLowerCase singleTweet create env)) =
  if configured env then
    SingleTweet FreeText.TWEET_ID Resolver.lookupParams ::
    match outcome (Resolver.fetchTweetData singleTweet FreeText.TWEET_ID) with
    | Return r =>
        if truthy (imageUrl r)
        then [ResponsesCreate (FreeText.request FreeText.question)]
        else []
    | _ => []
    end
  else [].
Proof.
  destruct (configured env) eqn:C.
  2:{ exact (proj2 (free_text_script_unconfigured
                       toLowerCase singleTweet create env C)). }
  rewrite (free_text_script_configured toLowerCase singleTweet create env C).
  unfold FreeText.main.
  rewrite events_bind, requests_app. simpl (outcome (console _ _)). cbv iota.
  rewrite events_try_catch, requests_app, events_bind, requests_app,
    fetchTweetData_requests, outcome_bind.
  destruct (outcome (Resolver.fetchTweetData singleTweet FreeText.TWEET_ID))
    as [r|e|c]; try reflexivity.
  destruct (imageUrl r) as [[|c0 u]|]; try reflexivity.
  pose proof (askOpenAIAboutImage_events create (String c0 u) FreeText.question)
    as Hask.
  rewrite events_bind, outcome_bind, requests_app, Hask.
  destruct (outcome (FreeText.askOpenAIAboutImage
                       create (String c0 u) FreeText.question))
    as [[| |[|c1 s]]|e|c]; try reflexivity.
  rewrite interpret_returns.
  unfold FreeText.interpret.
  destruct (FreeText.verdict (toLowerCase (String c1 s))); reflexivity.
Qed.

(** In both scripts [main] handles whatever its body throws, so the
    [.catch] handler attached to [main()] never runs: attaching it changes
    nothing. *)
Theorem unhandled_handler_unreachable singleTweet :
  (forall parse,
      catch_unhandled (Schema.main singleTweet parse)
      = Schema.main singleTweet parse) /\
  (forall toLowerCase create,
      catch_unhandled (FreeText.main toLowerCase singleTweet create)
      = FreeText.main toLowerCase singleTweet create).
Proof.
  split; intros; apply try_catch_settled.
  - apply schema_main_no_throw.
  - apply free_text_main_no_throw.
Qed.

(** [src/index.ts]: once the tweet is resolved with an image URL and the
    inference call is fulfilled, the script sends the request, prints what
    the first choice's message carries as parsed content, or [undefined]
    when there is no choice or no message, and exits with code 0. *)
Theorem schema_prints_what_it_got
        singleTweet parse (env : Env) (r : ResolvedImage) (u : string) resp :
  configured env = true ->
  outcome (Resolver.fetchTweetData singleTweet Schema.TWEET_ID) = Return r ->
  imageUrl r = Some u -> u <> EmptyString ->
  parse (Schema.request u) = Fulfilled resp ->
  exists before,
    events (Schema.script singleTweet parse env) =
    before ++
    [Console Level.log [Str ("Image URL: " ++ u)];
     ChatParse (Schema.request u);
     Console Level.log
       [Parsed match Chat.choices resp with
               | [] => undefined
               | first :: _ =>
                   match Chat.message first with
                   | None => undefined
                   | Some m => Chat.parsed m
                   end
               end]] /\
    exit_code (Schema.script singleTweet parse env) = 0%Z.
Proof.
  intros C Hf Hu Hne Hp.
  rewrite (schema_script_configured singleTweet parse env C).
  rewrite (schema_main_asked singleTweet parse r u Hf Hu Hne).
  rewrite (askOpenAIAboutImage_fulfilled parse u resp Hp).
  assert (chain_nullable (chain (nth_error (Chat.choices resp) 0) Chat.message)
                         Chat.parsed
          = match Chat.choices resp with
            | [] => undefined
            | first :: _ =>
                match Chat.message first with
                | None => undefined
                | Some m => Chat.parsed m
                end
            end) as ->.
  { destruct (Chat.choices resp) as [|first rest]; [reflexivity|].
    simpl. destruct (Chat.message first); reflexivity. }
  exists (Console Level.log [Str ("Processing Tweet ID: " ++ Schema.TWEET_ID)]
            :: events (Resolver.fetchTweetData singleTweet Schema.TWEET_ID)).
  split; reflexivity.
Qed.

Lemma schema_prints_what_it_got_witness :
  let found :=
    fun (_ : string) (_ : Twitter.LookupParams) =>
      Fulfilled (Samples.tweet_with (Some [Samples.video_preview])) in
  let silent := fun _ : Chat.Request => Fulfilled {| Chat.choices := [] |} in
  exists before,
    events (Schema.script found silent Samples.env_ok) =
    before ++
    [Console Level.log [Str "Image URL: https://pbs.twimg.com/media/v_thumb.jpg"];
     ChatParse (Schema.request "https://pbs.twimg.com/media/v_thumb.jpg");
     Console Level.log [Parsed undefined]] /\
    exit_code (Schema.script found silent Samples.env_ok) = 0%Z.
Proof.
  intros found silent.
  apply (schema_prints_what_it_got
           found silent Samples.env_ok
           (Build_ResolvedImage (Some "https://pbs.twimg.com/media/v_thumb.jpg")
                                (Some "look at my hat"))
           "https://pbs.twimg.com/media/v_thumb.jpg"
           {| Chat.choices := [] |});
    try reflexivity.
  discriminate.
Defined.

(** The free-text script: when the inference call returns nothing usable
    ([undefined], [null] or the empty string), no keyword is looked for; the
    script prints that no response was provided and a [false] result, and
    exits with code 0. *)
Theorem free_text_no_response
        toLowerCase singleTweet create (env : Env) (r : ResolvedImage) (u : string)
        (v : Nullable string) :
  configured env = true ->
  outcome (Resolver.fetchTweetData singleTweet FreeText.TWEET_ID) = Return r ->
  imageUrl r = Some u -> u <> EmptyString ->
  outcome (FreeText.askOpenAIAboutImage create u FreeText.question) = Return v ->
  v = undefined \/ v = null \/ v = value EmptyString ->
  exists before,
    events (FreeText.script toLowerCase singleTweet create env) =
    before ++
    [ResponsesCreate (FreeText.request FreeText.question);
     Console Level.log [Str "OpenAI did not provide a response."];
     Console Level.log
       [Str ("Result for " ++ dq ++ FreeText.asked ++ dq
             ++ ": false (no OpenAI response)")]] /\
    exit_code (FreeText.script toLowerCase singleTweet create env) = 0%Z.
Proof.
  intros C Hf Hu Hne Hv Habsent.
  rewrite (free_text_script_configured toLowerCase singleTweet create env C).
  exists (Console Level.log [Str ("Processing Tweet ID: " ++ FreeText.TWEET_ID)]
            :: events (Resolver.fetchTweetData singleTweet FreeText.TWEET_ID)).
  split.
  - rewrite (free_text_main_asked toLowerCase singleTweet create r u Hf Hu Hne), Hv.
    assert (events (FreeText.askOpenAIAboutImage create u FreeText.question)
            = [ResponsesCreate (FreeText.request FreeText.question)]) as ->.
    { revert Hv. unfold FreeText.askOpenAIAboutImage.
      destruct (create (FreeText.request FreeText.question)) as [[[cs|]]|e];
        try discriminate; reflexivity. }
    destruct Habsent as [->|[->| ->]]; reflexivity.
  - unfold exit_code. rewrite free_text_main_returns. reflexivity.
Qed.

Lemma free_text_no_response_witness :
  let found :=
    fun (_ : string) (_ : Twitter.LookupParams) =>
      Fulfilled (Samples.tweet_with (Some [Samples.photo_both])) in
  let silent :=
    fun _ : Responses.Request => Fulfilled {| Responses.choices := Some [] |} in
  exists before,
    events (FreeText.script Samples.asciiLowerCase found silent Samples.env_ok) =
    before ++
    [ResponsesCreate (FreeText.request FreeText.question);
     Console Level.log [Str "OpenAI did not provide a response."];
     Console Level.log
       [Str ("Result for " ++ dq ++ FreeText.asked ++ dq
             ++ ": false (no OpenAI response)")]] /\
    exit_code (FreeText.script Samples.asciiLowerCase found silent Samples.env_ok) = 0%Z.
Proof.
  intros found silent.
  apply (free_text_no_response
           Samples.asciiLowerCase found silent Samples.env_ok
           (Build_ResolvedImage (Some "https://pbs.twimg.com/media/a.jpg")
                                (Some "look at my hat"))
           "https://pbs.twimg.com/media/a.jpg" undefined);
    try reflexivity; [discriminate | now left].
Defined.

(** How a failure of the resolver reaches the user.  [src/index.ts] ends on
    an error line that carries the resolver's message and exits with code 1;
    the free-text script writes the same error line, then a [false] result
    that quotes the message, and exits with code 0.  Neither sends an
    inference request. *)
Theorem resolver_failure_reporting
        singleTweet (env : Env) (message : string) :
  configured env = true ->
  (forall parse,
      outcome (Resolver.fetchTweetData singleTweet Schema.TWEET_ID)
      = Throw (ErrorObj message) ->
      exists before,
        events (Schema.script singleTweet parse env) =
        before ++
        [Console Level.error
           [Str "Error in main execution:"; Str message; Caught (ErrorObj message)]] /\
        exit_code (Schema.script singleTweet parse env) = 1%Z) /\
  (forall toLowerCase create,
      outcome (Resolver.fetchTweetData singleTweet FreeText.TWEET_ID)
      = Throw (ErrorObj message) ->
      exists before,
        events (FreeText.script toLowerCase singleTweet create env) =
        before ++
        [Console Level.error
           [Str "Error in main execution:"; Str message; Caught (ErrorObj message)];
         Console Level.log
           [Str ("Result for " ++ dq ++ FreeText.asked ++ dq
                 ++ ": false (due to error: " ++ message ++ ")")]] /\
        exit_code (FreeText.script toLowerCase singleTweet create env) = 0%Z).
Proof.
  intros C. split.
  - intros parse Hf.
    rewrite (schema_script_configured singleTweet parse env C).
    rewrite (schema_main_unresolved singleTweet parse _ Hf).
    eexists (_ :: _). split; reflexivity.
  - intros toLowerCase create Hf.
    rewrite (free_text_script_configured toLowerCase singleTweet create env C).
    rewrite (free_text_main_unresolved toLowerCase singleTweet create _ Hf).
    eexists (_ :: _). split; reflexivity.
Qed.

Lemma resolver_failure_reporting_witness :
  let unavailable :=
    fun (_ : string) (_ : Twitter.LookupParams) =>
      @Rejected Twitter.TweetV2SingleResult (ErrorObj "Request failed with code 503") in
  let create := fun _ : Responses.Request => Fulfilled (Samples.answer "yes") in
  exists before,
    events (FreeText.script Samples.asciiLowerCase unavailable create Samples.env_ok) =
    before ++
    [Console Level.error
       [Str "Error in main execution:";
        Str "Failed to process tweet 1921316529062265045: Request failed with code 503";
        Caught (ErrorObj
                  "Failed to process tweet 1921316529062265045: Request failed with code 503")];
     Console Level.log
       [Str ("Result for " ++ dq ++ FreeText.asked ++ dq
             ++ ": false (due to error: "
             ++ "Failed to process tweet 1921316529062265045: Request failed with code 503"
             ++ ")")]] /\
    exit_code (FreeText.script Samples.asciiLowerCase unavailable create Samples.env_ok) = 0%Z.
Proof.
  intros unavailable create.
  apply (proj2 (resolver_failure_reporting
                  unavailable Samples.env_ok
                  "Failed to process tweet 1921316529062265045: Request failed with code 503"
                  eq_refl));
    reflexivity.
Defined.

(** The keyword test of the free-text script decides [false] exactly when
    the lower-cased response contains none of the three positive keywords
    and contains [no]: the other two negative keywords contain [no]
    themselves and add nothing.  A response that contains [it does not]
    contains the positive keyword [it does], so it is always read as
    [true]. *)
Theorem negative_keywords_collapse (responseLower : string) :
  (FreeText.verdict responseLower = Some false <->
   (forall k, In k ["yes"; "it does"; "shows a black baseball hat"] ->
              Js.includes responseLower k = false) /\
   Js.includes responseLower "no" = true) /\
  (Js.includes responseLower "it does not" = true ->
   FreeText.verdict responseLower = Some true).
Proof.
  assert (forall l,
             existsb (fun keyword => Js.includes responseLower keyword) l = false ->
             forall k, In k l -> Js.includes responseLower k = false) as Hnone.
  { intros l H k Hk. destruct (Js.includes responseLower k) eqn:E; [|reflexivity].
    assert (existsb (fun keyword => Js.includes responseLower keyword) l = true)
      as H' by (apply existsb_exists; eauto).
    rewrite H' in H. discriminate. }
  unfold FreeText.verdict.
  change FreeText.positiveKeywords
    with ["yes"; "it does"; "shows a black baseball hat"].
  destruct (existsb (fun keyword => Js.includes responseLower keyword)
                    ["yes"; "it does"; "shows a black baseball hat"]) eqn:P.
  - split; [|reflexivity]. split; [discriminate|].
    intros [Hpos _]. apply existsb_exists in P. destruct P as (k & Hk & Hin).
    rewrite (Hpos k Hk) in Hin. discriminate.
  - destruct (existsb (fun keyword => Js.includes responseLower keyword)
                      FreeText.negativeKeywords) eqn:N.
    + split.
      * split; [|reflexivity]. intros _. split; [exact (Hnone _ P)|].
        apply existsb_exists in N. destruct N as (k & Hk & Hin).
        apply (includes_trans _ k); [exact Hin|].
        destruct Hk as [<-|[<-|[<-|[]]]]; reflexivity.
      * intros H.
        pose proof (includes_trans _ _ "it does" H eq_refl) as H1.
        rewrite (Hnone _ P "it does") in H1; [discriminate | simpl; auto].
    + split.
      * split; [discriminate|]. intros [_ Hno].
        rewrite (Hnone _ N "no") in Hno; [discriminate | simpl; auto].
      * intros H.
        pose proof (includes_trans _ _ "it does" H eq_refl) as H1.
        rewrite (Hnone _ P "it does") in H1; [discriminate | simpl; auto].
Qed.

Lemma negative_keywords_collapse_witness :
  FreeText.verdict "the image does not show it, it does not" = Some true.
Proof.
  apply (proj2 (negative_keywords_collapse "the image does not show it, it does not")).
  reflexivity.
Defined.

(** Missing secrets.  [src/index.ts] checks before anything else: a key
    that is unset or empty stops it with one error line naming
    [OPENAI_API_KEY] and exit code 1, whatever the bearer token is; the line
    names [TWITTER_BEARER_TOKEN] only when the key is set.  The free-text
    script constructs its OpenAI client before the checks: with the key
    unset the constructor's error is left uncaught, so the script prints no
    line of its own and the process ends with code 1; with the key set to
    the empty string, or with the key set and the bearer token missing, it
    prints the same lines as [src/index.ts] and exits with code 1. *)
Theorem missing_secret_messages toLowerCase singleTweet parse create (env : Env) :
  (truthy (OPENAI_API_KEY env) = false ->
   Schema.script singleTweet parse env
   = ([Console Level.error
         [Str "Error: OPENAI_API_KEY is not set in the .env file."]], Exit 1)) /\
  (truthy (OPENAI_API_KEY env) = true ->
   truthy (TWITTER_BEARER_TOKEN env) = false ->
   Schema.script singleTweet parse env
   = ([Console Level.error
         [Str "Error: TWITTER_BEARER_TOKEN is not set in the .env file. This is required to fetch tweet data."]],
      Exit 1) /\
   FreeText.script toLowerCase singleTweet create env
   = ([Console Level.error
         [Str "Error: TWITTER_BEARER_TOKEN is not set in the .env file. This is required to fetch tweet data."]],
      Exit 1)) /\
  (OPENAI_API_KEY env = None ->
   FreeText.script toLowerCase singleTweet create env
   = ([], Throw OpenAIError_missing_key) /\
   exit_code (FreeText.script toLowerCase singleTweet create env) = 1%Z) /\
  (OPENAI_API_KEY env = Some EmptyString ->
   FreeText.script toLowerCase singleTweet create env
   = ([Console Level.error
         [Str "Error: OPENAI_API_KEY is not set in the .env file."]], Exit 1)).
Proof.
  unfold Schema.script, FreeText.script, check_env.
  split; [|split; [|split]].
  - intros ->. reflexivity.
  - intros H ->. rewrite H.
    destruct (OPENAI_API_KEY env) as [key|]; [|discriminate].
    split; reflexivity.
  - intros ->. split; reflexivity.
  - intros ->. reflexivity.
Qed.

Lemma missing_secret_messages_witness :
  let found :=
    fun (_ : string) (_ : Twitter.LookupParams) =>
      Fulfilled (Samples.tweet_with (Some [Samples.photo_both])) in
  let parse :=
    fun _ : Chat.Request =>
      Fulfilled (Samples.completion (value Samples.hat_visible)) in
  let create := fun _ : Responses.Request => Fulfilled (Samples.answer "yes") in
  let unset := {| OPENAI_API_KEY := None; TWITTER_BEARER_TOKEN := None |} in
  let empty :=
    {| OPENAI_API_KEY := Some EmptyString; TWITTER_BEARER_TOKEN := Some "bearer" |} in
  let no_token :=
    {| OPENAI_API_KEY := Some "sk-test"; TWITTER_BEARER_TOKEN := Some EmptyString |} in
  Schema.script found parse unset
  = ([Console Level.error
        [Str "Error: OPENAI_API_KEY is not set in the .env file."]], Exit 1) /\
  FreeText.script Samples.asciiLowerCase found create unset
  = ([], Throw OpenAIError_missing_key) /\
  FreeText.script Samples.asciiLowerCase found create empty
  = ([Console Level.error
        [Str "Error: OPENAI_API_KEY is not set in the .env file."]], Exit 1) /\
  FreeText.script Samples.asciiLowerCase found create no_token
  = ([Console Level.error
        [Str "Error: TWITTER_BEARER_TOKEN is not set in the .env file. This is required to fetch tweet data."]],
     Exit 1).
Proof.
  intros found parse create unset empty no_token.
  split; [|split; [|split]].
  - apply (proj1 (missing_secret_messages
                    Samples.asciiLowerCase found parse create unset)).
    reflexivity.
  - apply (proj1 (proj2 (proj2 (missing_secret_messages
                                  Samples.asciiLowerCase found parse create unset)))).
    reflexivity.
  - apply (proj2 (proj2 (proj2 (missing_secret_messages
                                  Samples.asciiLowerCase found parse create empty)))).
    reflexivity.
  - apply (proj1 (proj2 (missing_secret_messages
                           Samples.asciiLowerCase found parse create no_token)));
      reflexivity.
Defined.
